(** * THREE.js / ARToolKit integration glue (web/artk_demos/js/artoolkit.three.js)

    A shallow embedding of the glue file: the [setFromArray] helper added to
    [THREE.Matrix4], the camera/tracker start-up handshake of
    [artoolkit.getUserMediaThreeScene], the scenes built by
    [artoolkit.createThreeScene] and the per-frame [process] and [renderOn]
    closures it returns, the
    [artoolkit.onGetMarker] override and the two marker tables with their
    constructors [createThreeMarker] and [createThreeBarcodeMarker].

    JavaScript objects are references, so scene-graph nodes live in a store
    indexed by locations and the marker tables map marker ids to locations.
    Calls into the browser, three.js and the tracking engine are recorded as
    effects or taken as inputs of the embedded functions. *)

From Stdlib Require SpecFloat.
From stdpp Require Import gmap strings list.

Local Open Scope Z_scope.

(** ** Completions: a JavaScript call returns normally or throws. *)

Inductive exn := RangeError | TypeError.

Inductive completion (A : Type) :=
  | Normal (a : A)
  | Throw (e : exn).
Arguments Normal {A} a.
Arguments Throw {A} e.

(** Object references. *)
Definition loc := nat.

(** The JavaScript values the embedded functions return. *)
Inductive jsval :=
  | undefined
  | objref (l : loc).

(** ** Start-up: [artoolkit.getUserMediaThreeScene] *)

(** [navigator] may carry the standard [getUserMedia] or a vendor-prefixed
    one; a missing property reads as [undefined], here [None]. *)
Inductive GumImpl := StdGum | WebkitGum | MozGum | MsGum.

Global Instance GumImpl_eq_dec : EqDecision GumImpl.
Proof. solve_decision. Defined.

Record Navigator := mkNavigator {
  getUserMedia : option GumImpl;
  webkitGetUserMedia : option GumImpl;
  mozGetUserMedia : option GumImpl;
  msGetUserMedia : option GumImpl
}.

(** JavaScript's [a || b] on values that are a function or [undefined]. *)
Definition or_else {A} (a b : option A) : option A :=
  match a with
  | Some _ => a
  | None => b
  end.

(** The value bound to the [onError] variable: the caller's function or the
    logging closure the code substitutes for a missing one. *)
Inductive ErrorCallback := user_onError | logging_onError.

(** Calls that leave this file, in the order they are made. *)
Inductive Effect :=
  | artoolkit_init (buildPath cameraPara : string)
  | console_log (msg : string)
  | call_onError (err : string)
  | navigator_getUserMedia (impl : GumImpl) (maxWidth maxHeight : Z)
  | video_addEventListener (type : string)
  | video_set_src
  | video_play
  | artoolkit_onReady
  | artoolkit_setup (videoWidth videoHeight : Z)
  | artoolkit_createThreeScene
  | call_onSuccess.

Global Instance Effect_eq_dec : EqDecision Effect.
Proof. solve_decision. Defined.

Record InitState := mkInitState {
  onError : option ErrorCallback;   (* the [onError] variable *)
  initWaitCount : Z;                (* the [initWaitCount] variable *)
  gumRequested : bool;              (* [success] and [onError] were passed to getUserMedia *)
  metadataListener : bool;          (* [initProgress] listens for 'loadedmetadata' *)
  readyCallback : bool;             (* [initProgress] was passed to artoolkit.onReady *)
  videoSize : Z * Z;                (* video.videoWidth, video.videoHeight *)
  effects : list Effect
}.

Definition emit (es : list Effect) (s : InitState) : InitState :=
  mkInitState (onError s) (initWaitCount s) (gumRequested s) (metadataListener s)
              (readyCallback s) (videoSize s) (effects s ++ es).
Definition set_initWaitCount (n : Z) (s : InitState) : InitState :=
  mkInitState (onError s) n (gumRequested s) (metadataListener s)
              (readyCallback s) (videoSize s) (effects s).
Definition set_gumRequested (b : bool) (s : InitState) : InitState :=
  mkInitState (onError s) (initWaitCount s) b (metadataListener s)
              (readyCallback s) (videoSize s) (effects s).
Definition set_metadataListener (b : bool) (s : InitState) : InitState :=
  mkInitState (onError s) (initWaitCount s) (gumRequested s) b
              (readyCallback s) (videoSize s) (effects s).
Definition set_readyCallback (b : bool) (s : InitState) : InitState :=
  mkInitState (onError s) (initWaitCount s) (gumRequested s) (metadataListener s)
              b (videoSize s) (effects s).
Definition set_videoSize (wh : Z * Z) (s : InitState) : InitState :=
  mkInitState (onError s) (initWaitCount s) (gumRequested s) (metadataListener s)
              (readyCallback s) wh (effects s).

(** Calling the value of [onError]: calling [undefined] is a [TypeError]. *)
Definition invoke_onError (err : string) (s : InitState) : completion unit * InitState :=
  match onError s with
  | None => (Throw TypeError, s)
  | Some user_onError => (Normal tt, emit [call_onError err] s)
  | Some logging_onError =>
      (Normal tt, emit [console_log "ERROR: artoolkit.getUserMediaThreeScene";
                        console_log err] s)
  end.

Definition completeInit (s : InitState) : InitState :=
  emit [artoolkit_setup (videoSize s).1 (videoSize s).2;
        artoolkit_createThreeScene;
        call_onSuccess] s.

Definition initProgress (s : InitState) : InitState :=
  let s1 := set_initWaitCount (initWaitCount s - 1) s in
  if decide (initWaitCount s1 = 0) then completeInit s1 else s1.

Definition success (s : InitState) : InitState :=
  let s1 := set_metadataListener true (emit [video_addEventListener "loadedmetadata"] s) in
  let s2 := emit [video_set_src; video_play] s1 in
  set_readyCallback true (emit [artoolkit_onReady] s2).

(** [navigator.getUserMedia || navigator.webkitGetUserMedia ||
    navigator.mozGetUserMedia || navigator.msGetUserMedia] *)
Definition pick_getUserMedia (nav : Navigator) : option GumImpl :=
  or_else (getUserMedia nav)
    (or_else (webkitGetUserMedia nav)
      (or_else (mozGetUserMedia nav) (msGetUserMedia nav))).

Definition getUserMediaThreeScene (nav : Navigator) (width height : Z)
    (onError0 : option ErrorCallback) : completion unit * InitState :=
  let onError1 := match onError0 with
                  | None => Some logging_onError
                  | Some f => Some f
                  end in
  let gum := pick_getUserMedia nav in
  let s := mkInitState onError1 2 false false false (0, 0)
             [artoolkit_init "../../builds" "../../bin/Data/camera_para.dat"] in
  match gum with
  | Some impl =>
      (Normal tt, set_gumRequested true (emit [navigator_getUserMedia impl width height] s))
  | None => invoke_onError EmptyString s
  end.

(** What the browser and the tracker can do with the callbacks they were
    given.  A callback that was never handed out cannot be called. *)
Inductive Event :=
  | gum_success                       (* getUserMedia calls [success(stream)] *)
  | gum_error (err : string)          (* getUserMedia calls [onError(err)] *)
  | loadedmetadata (w h : Z)          (* the video element fires 'loadedmetadata' *)
  | tracker_ready.                    (* the tracker calls the artoolkit.onReady callback *)

Definition step (ev : Event) (s : InitState) : InitState :=
  match ev with
  | gum_success => if gumRequested s then success s else s
  | gum_error err => if gumRequested s then (invoke_onError err s).2 else s
  | loadedmetadata w h =>
      if metadataListener s then initProgress (set_videoSize (w, h) s) else s
  | tracker_ready => if readyCallback s then initProgress s else s
  end.

Definition run (tr : list Event) (s : InitState) : InitState :=
  foldl (λ s ev, step ev s) s tr.

Definition is_loadedmetadata (ev : Event) : bool :=
  match ev with loadedmetadata _ _ => true | _ => false end.
Definition is_tracker_ready (ev : Event) : bool :=
  match ev with tracker_ready => true | _ => false end.
Definition is_gum_success (ev : Event) : bool :=
  match ev with gum_success => true | _ => false end.

(** The events that follow the first [gum_success], i.e. those that arrive
    once [success] has registered [initProgress]. *)
Fixpoint after_success (tr : list Event) : list Event :=
  match tr with
  | [] => []
  | ev :: tr' => if is_gum_success ev then tr' else after_success tr'
  end.

Definition times (p : Event → bool) (tr : list Event) : nat :=
  length (filter (λ ev, p ev = true) tr).

Definition onSuccess_calls (s : InitState) : nat :=
  length (filter (λ e, e = call_onSuccess) (effects s)).

(** An event that runs [initProgress] once the callbacks are registered. *)
Definition progress (ev : Event) : bool :=
  is_loadedmetadata ev || is_tracker_ready ev.


(** [success] has run: both callbacks are registered. *)
Definition listening (s : InitState) : Prop :=
  gumRequested s = true ∧ metadataListener s = true ∧ readyCallback s = true.

(** Nothing has been handed to the browser or the tracker. *)
Definition idle (s : InitState) : Prop :=
  gumRequested s = false ∧ metadataListener s = false ∧ readyCallback s = false.





(** ** Rendering: the [renderOn] closure *)

(** The object returned by [artoolkit.createThreeScene]: references to the
    two scenes and their cameras. *)
Record ThreeARScene := mkThreeARScene {
  scene : loc;
  videoScene : loc;
  camera : loc;
  videoCamera : loc
}.

Inductive RenderCall :=
  | Clear
  | Render (sc cam : loc).

(** Modelled from the spec: the renderer ([THREE.WebGLRenderer]) belongs to
    the external 3D library, which this file only calls.  As three.js
    documents it, [clear()] empties the output and [render(scene, camera)]
    first clears it when [autoClear] is set and then draws the scene on top
    of what is there.  [drawn] lists the layers in the output, oldest first;
    [calls] logs the calls. *)
Record WebGLRenderer := mkRenderer {
  autoClear : bool;
  drawn : list (loc * loc);
  calls : list RenderCall
}.

Definition set_autoClear (b : bool) (r : WebGLRenderer) : WebGLRenderer :=
  mkRenderer b (drawn r) (calls r).
Definition renderer_clear (r : WebGLRenderer) : WebGLRenderer :=
  mkRenderer (autoClear r) [] (calls r ++ [Clear]).
Definition renderer_render (sc cam : loc) (r : WebGLRenderer) : WebGLRenderer :=
  mkRenderer (autoClear r)
             ((if autoClear r then [] else drawn r) ++ [(sc, cam)])
             (calls r ++ [Render sc cam]).

(** [renderOn(renderer)]; the first component of the state is
    [videoTex.needsUpdate]. *)
Definition renderOn (this : ThreeARScene) (st : bool * WebGLRenderer) : bool * WebGLRenderer :=
  let needsUpdate := true in
  let renderer := st.2 in
  let ac := autoClear renderer in
  let renderer := set_autoClear false renderer in
  let renderer := renderer_clear renderer in
  let renderer := renderer_render (videoScene this) (videoCamera this) renderer in
  let renderer := renderer_render (scene this) (camera this) renderer in
  let renderer := set_autoClear ac renderer in
  (needsUpdate, renderer).

(** ** [artoolkit.createThreeScene]: textures and materials *)

(** The named constants of the 3D library that the file passes along;
    any other value a property can hold is [other_constant]. *)
Inductive ThreeConstant :=
  | LinearFilter
  | DoubleSide
  | other_constant (code : Z).

Record Texture := mkTexture {
  minFilter : ThreeConstant;
  flipY : bool;
  needsUpdate : bool
}.

(** What a material's [map] refers to: nothing, or the [videoTex] object. *)
Inductive TextureRef := no_texture | videoTex_ref.

Record Material := mkMaterial {
  material_map : TextureRef;
  side : ThreeConstant;
  depthTest : bool;
  depthWrite : bool
}.

(** ** JavaScript numbers and [Float32Array] entries *)

(** A JavaScript number is an IEEE 754 binary64 value and an entry of a
    [Float32Array] a binary32 value; both are written as [spec_float]s of
    the Standard Library, whose [binary_round] rounds to nearest, ties to
    even. *)
Definition number := SpecFloat.spec_float.
Definition float32 := SpecFloat.spec_float.

(** What a [Float32Array] keeps of a number stored into it. *)
Definition float32_of_number (x : number) : float32 :=
  match x with
  | SpecFloat.S754_finite s m e => SpecFloat.binary_round 24 128 s m e
  | _ => x
  end.

(** Reading an entry of a [Float32Array] gives the number of the same
    value. *)
Definition number_of_float32 (x : float32) : number :=
  match x with
  | SpecFloat.S754_finite s m e => SpecFloat.binary_round 53 1024 s m e
  | _ => x
  end.

(** The number an integer literal denotes. *)
Definition number_of_Z (n : Z) : number := SpecFloat.binary_normalize 53 1024 n 0 false.

(** ** Sample matrices *)

(** The identity, column-major: the entries of a fresh [THREE.Matrix4].
    Integers stand in for the floats; the glue never inspects the entries. *)
Definition identity16 : list Z := [1; 0; 0; 0;  0; 1; 0; 0;  0; 0; 1; 0;  0; 0; 0; 1].

(** A pose: the identity moved by (2, 3, -5). *)
Definition pose16 : list Z := [1; 0; 0; 0;  0; 1; 0; 0;  0; 0; 1; 0;  2; 3; -5; 1].

(** A pose whose translation, 2^24 + 1 and -(2^24 + 3), has no float32 of
    the same value. *)
Definition far_pose16 : list Z :=
  [1; 0; 0; 0;  0; 1; 0; 0;  0; 0; 1; 0;  16777217; -16777219; 0; 1].

(** The same pose as a [Float32Array] keeps it. *)
Definition far_pose16_rounded : list Z :=
  [1; 0; 0; 0;  0; 1; 0; 0;  0; 0; 1; 0;  16777216; -16777220; 0; 1].

Section Scene.

(** The element type of the typed arrays ([Float32Array] entries).  The
    glue only copies such values, it never computes with them. *)
Variable num : Type.

(** ** Typed arrays and [THREE.Matrix4] *)

(** [%TypedArray%.prototype.set(source)] with the default offset 0: throws a
    [RangeError] when the source is longer than the target, otherwise
    overwrites the first [length src] entries.  Its return value is
    [undefined].  The source is an array of the same element type, as
    [setFromArray] documents its parameter ([Float32Array]). *)
Definition typed_array_set (dst src : list num) : option (list num) :=
  if decide (length src ≤ length dst)%nat
  then Some (src ++ drop (length src) dst)
  else None.

(** [%TypedArray%.prototype.set(source)] when the source is a plain [Array]
    or a typed array of another element type [A]: the length check is the
    same, and every entry is converted to the element type of the target as
    it is stored; [convert] is that conversion. *)
Definition typed_array_set_converting {A} (convert : A → num)
    (dst : list num) (src : list A) : option (list num) :=
  if decide (length src ≤ length dst)%nat
  then Some ((convert <$> src) ++ drop (length src) dst)
  else None.

Record Matrix4 := mkMatrix4 { elements : list num }.

(** [THREE.Matrix4.prototype.setFromArray = function(m) { return this.elements.set(m); }]
    The result pairs the completion with the matrix after the call. *)
Definition setFromArray (this : Matrix4) (m : list num) : completion jsval * Matrix4 :=
  match typed_array_set (elements this) m with
  | Some e => (Normal undefined, mkMatrix4 e)
  | None => (Throw RangeError, this)
  end.

(** [setFromArray] called with such an array. *)
Definition setFromArray_of {A} (convert : A → num) (this : Matrix4) (m : list A) :
    completion jsval * Matrix4 :=
  match typed_array_set_converting convert (elements this) m with
  | Some e => (Normal undefined, mkMatrix4 e)
  | None => (Throw RangeError, this)
  end.

(** ** Scene-graph nodes *)

Record Object3D := mkObject3D {
  matrix : Matrix4;
  visible : bool;
  matrixAutoUpdate : bool
}.

(** The state of a node right after [new THREE.Object3D()]; three.js is an
    external library, so the constructor's result is a parameter. *)
Variable Object3D_new : Object3D.

Definition set_matrix (m : Matrix4) (o : Object3D) : Object3D :=
  mkObject3D m (visible o) (matrixAutoUpdate o).
Definition set_visible (b : bool) (o : Object3D) : Object3D :=
  mkObject3D (matrix o) b (matrixAutoUpdate o).
Definition set_matrixAutoUpdate (b : bool) (o : Object3D) : Object3D :=
  mkObject3D (matrix o) (visible o) b.

(** ** The world the glue code reads and writes *)

(** A marker report handed to [artoolkit.onGetMarker]; the handler reads the
    fields [idPatt] and [idMatrix] only.  Marker ids are integers.  As
    property keys of the two tables they are their decimal strings, one per
    integer, so the tables are maps keyed by [Z]. *)
Record Marker := mkMarker { idPatt : Z; idMatrix : Z }.

Record World := mkWorld {
  heap : gmap loc Object3D;            (* every Object3D allocated so far *)
  patternMarkers : gmap Z loc;         (* artoolkit.patternMarkers *)
  barcodeMarkers : gmap Z loc;         (* artoolkit.barcodeMarkers *)
  projectionMatrix : Matrix4;          (* camera.projectionMatrix of the scene camera *)
  transformationMatrix : list num;     (* what artoolkit.getTransformationMatrix() returns *)
  cameraMatrix : list num              (* what artoolkit.getCameraMatrix() returns *)
}.

Definition set_heap (h : gmap loc Object3D) (w : World) : World :=
  mkWorld h (patternMarkers w) (barcodeMarkers w) (projectionMatrix w)
          (transformationMatrix w) (cameraMatrix w).
Definition set_patternMarkers (t : gmap Z loc) (w : World) : World :=
  mkWorld (heap w) t (barcodeMarkers w) (projectionMatrix w)
          (transformationMatrix w) (cameraMatrix w).
Definition set_barcodeMarkers (t : gmap Z loc) (w : World) : World :=
  mkWorld (heap w) (patternMarkers w) t (projectionMatrix w)
          (transformationMatrix w) (cameraMatrix w).
Definition set_projectionMatrix (m : Matrix4) (w : World) : World :=
  mkWorld (heap w) (patternMarkers w) (barcodeMarkers w) m
          (transformationMatrix w) (cameraMatrix w).
Definition set_transformationMatrix (m : list num) (w : World) : World :=
  mkWorld (heap w) (patternMarkers w) (barcodeMarkers w) (projectionMatrix w)
          m (cameraMatrix w).
Definition set_cameraMatrix (m : list num) (w : World) : World :=
  mkWorld (heap w) (patternMarkers w) (barcodeMarkers w) (projectionMatrix w)
          (transformationMatrix w) m.

(** ** A state-and-exception monad for the stateful functions *)

Definition M (A : Type) : Type := World → completion A * World.

Definition ret {A} (a : A) : M A := λ w, (Normal a, w).
Definition throw {A} (e : exn) : M A := λ w, (Throw e, w).
Definition bind {A B} (m : M A) (k : A → M B) : M B :=
  λ w, match m w with
       | (Normal a, w') => k a w'
       | (Throw e, w') => (Throw e, w')
       end.
Definition gets {A} (f : World → A) : M A := λ w, (Normal (f w), w).
Definition modify (f : World → World) : M unit := λ w, (Normal tt, f w).

Notation "'let*' x ':=' m 'in' k" := (bind m (λ x, k))
  (at level 10, x name, m at level 100, k at level 200).
Notation "'do' m 'then' k" := (bind m (λ _, k))
  (at level 10, m at level 100, k at level 200).

Fixpoint for_each {A} (xs : list A) (body : A → M unit) : M unit :=
  match xs with
  | [] => ret tt
  | x :: xs' => do body x then for_each xs' body
  end.

(** [obj.visible = b] for the object at [l]. *)
Definition write_visible (l : loc) (b : bool) : M unit :=
  modify (λ w, set_heap (alter (set_visible b) l (heap w)) w).

(** [obj.matrix.setFromArray(m)] for the object at [l].  Table entries always
    refer to live objects; a location outside the store has nothing to
    update. *)
Definition object_matrix_setFromArray (l : loc) (m : list num) : M jsval :=
  λ w, match heap w !! l with
       | None => (Normal undefined, w)
       | Some o =>
           match setFromArray (matrix o) m with
           | (Normal v, mat) => (Normal v, set_heap (<[l := set_matrix mat o]> (heap w)) w)
           | (Throw e, _) => (Throw e, w)
           end
       end.

(** ** [artoolkit.createThreeMarker] and [artoolkit.createThreeBarcodeMarker] *)

(** [new THREE.Object3D()]: a location not yet in the store. *)
Definition new_Object3D : M loc :=
  λ w, let l := fresh (dom (heap w)) in
       (Normal l, set_heap (<[l := Object3D_new]> (heap w)) w).

Definition createThreeMarker (markerUID : Z) : M loc :=
  let* obj := new_Object3D in
  do modify (λ w, set_heap (alter (set_matrixAutoUpdate false) obj (heap w)) w) then
  do modify (λ w, set_patternMarkers (<[markerUID := obj]> (patternMarkers w)) w) then
  ret obj.

Definition createThreeBarcodeMarker (markerUID : Z) : M loc :=
  let* obj := new_Object3D in
  do modify (λ w, set_heap (alter (set_matrixAutoUpdate false) obj (heap w)) w) then
  do modify (λ w, set_barcodeMarkers (<[markerUID := obj]> (barcodeMarkers w)) w) then
  ret obj.

(** ** [artoolkit.onGetMarker] *)

(** The body of one [if (obj) { ... }] block; [None] is the falsy
    [undefined] of a missing key. *)
Definition track_object (obj : option loc) : M unit :=
  match obj with
  | Some l =>
      let* m := gets transformationMatrix in
      do object_matrix_setFromArray l m then
      write_visible l true
  | None => ret tt
  end.

Definition onGetMarker (marker : Marker) : M unit :=
  let* obj := gets (λ w, patternMarkers w !! idPatt marker) in
  do track_object obj then
  let* obj := gets (λ w, barcodeMarkers w !! idMatrix marker) in
  track_object obj.

(** ** The tracking engine, as seen from [process] *)

(** Modelled from the spec: the tracking engine behind [artoolkit.process],
    [artoolkit.getTransformationMatrix] and [artoolkit.getCameraMatrix] is
    compiled code that this file only calls.  While it processes one video
    frame it reports each detected marker by calling [artoolkit.onGetMarker],
    exposing that marker's pose matrix through [getTransformationMatrix];
    afterwards [getCameraMatrix] returns the camera projection.  A [Frame]
    lists what the engine does for one frame, whatever that is. *)
Record Frame := mkFrame {
  reports : list (Marker * list num);
  cameraAfter : list num
}.

Definition artoolkit_process (frame : Frame) : M unit :=
  do for_each (reports frame)
       (λ r, do modify (set_transformationMatrix r.2) then onGetMarker r.1) then
  modify (set_cameraMatrix (cameraAfter frame)).

(** ** The [process] closure of the ThreeARScene object *)

(** The keys a [for (var i in table)] loop visits. *)
Definition for_in_keys (table : gmap Z loc) : list Z := (map_to_list table).*1.

(** [table[i].visible = false]; assigning through a missing entry would be a
    [TypeError]. *)
Definition hide_entry (table : World → gmap Z loc) (i : Z) : M unit :=
  let* obj := gets (λ w, table w !! i) in
  match obj with
  | Some l => write_visible l false
  | None => throw TypeError
  end.

(** [camera.projectionMatrix.setFromArray(m)] *)
Definition camera_projectionMatrix_setFromArray (m : list num) : M jsval :=
  λ w, match setFromArray (projectionMatrix w) m with
       | (Normal v, mat) => (Normal v, set_projectionMatrix mat w)
       | (Throw e, _) => (Throw e, w)
       end.

(** The two [for ... in] loops that open [process]. *)
Definition hide_markers : M unit :=
  let* ks := gets (λ w, for_in_keys (patternMarkers w)) in
  do for_each ks (hide_entry patternMarkers) then
  let* ks := gets (λ w, for_in_keys (barcodeMarkers w)) in
  for_each ks (hide_entry barcodeMarkers).

Definition process (frame : Frame) : M unit :=
  do hide_markers then
  do artoolkit_process frame then
  let* m := gets cameraMatrix in
  do camera_projectionMatrix_setFromArray m then
  ret tt.

(** ** Shape invariants and the net effect of a marker report *)

(** Every [Matrix4] of three.js holds 16 entries. *)
Definition object_matrices16 (h : gmap loc Object3D) : Prop :=
  ∀ l o, h !! l = Some o → length (elements (matrix o)) = 16%nat.

Definition matrix16 (l : loc) (o : Object3D) : Prop :=
  length (elements (matrix o)) = 16%nat.

Global Instance matrix16_dec (l : loc) (o : Object3D) : Decision (matrix16 l o).
Proof. unfold matrix16. apply _. Defined.

Global Instance object_matrices16_dec (h : gmap loc Object3D) :
  Decision (object_matrices16 h).
Proof. exact (map_Forall_dec matrix16 h). Defined.

(** No table entry dangles: both tables refer to allocated objects only. *)
Definition tables_closed (w : World) : Prop :=
  (∀ k l, patternMarkers w !! k = Some l → is_Some (heap w !! l)) ∧
  (∀ k l, barcodeMarkers w !! k = Some l → is_Some (heap w !! l)).

(** [artoolkit.patternMarkers = {}; artoolkit.barcodeMarkers = {};] with no
    object allocated yet; the matrices are whatever three.js and the tracker
    start with. *)
Definition initial_world (projection transformation cam : list num) : World :=
  mkWorld ∅ ∅ ∅ (mkMatrix4 projection) transformation cam.

(** The object [l] is registered in one of the two tables. *)
Definition registered (w : World) (l : loc) : Prop :=
  (∃ k, patternMarkers w !! k = Some l) ∨ (∃ k, barcodeMarkers w !! k = Some l).

(** The report [mk] names an id under which [l] is registered. *)
Definition reported (w : World) (mk : Marker) (l : loc) : Prop :=
  patternMarkers w !! idPatt mk = Some l ∨ barcodeMarkers w !! idMatrix mk = Some l.

Definition tracked (m : list num) (o : Object3D) : Object3D :=
  set_visible true (set_matrix (mkMatrix4 m) o).

Definition track_heap (m : list num) (obj : option loc)
    (h : gmap loc Object3D) : gmap loc Object3D :=
  match obj with
  | Some l => alter (tracked m) l h
  | None => h
  end.

(** The world after [onGetMarker(mk)] when no call throws. *)
Definition after_report (mk : Marker) (w : World) : World :=
  let m := transformationMatrix w in
  set_heap (track_heap m (barcodeMarkers w !! idMatrix mk)
             (track_heap m (patternMarkers w !! idPatt mk) (heap w))) w.

(** The world after the tracker has delivered the reports [rs] in order. *)
Definition after_reports (rs : list (Marker * list num)) (w : World) : World :=
  foldl (λ w r, after_report r.1 (set_transformationMatrix r.2 w)) w rs.

(** Hiding the objects at the locations [ls], one after the other. *)
Definition hide_locs (ls : list loc) (h : gmap loc Object3D) : gmap loc Object3D :=
  foldl (λ h l, alter (set_visible false) l h) h ls.

Definition table_objects (t : gmap Z loc) : list loc := (map_to_list t).*2.

(** The world after [hide_markers]. *)
Definition after_hide (w : World) : World :=
  set_heap (hide_locs (table_objects (barcodeMarkers w))
             (hide_locs (table_objects (patternMarkers w)) (heap w))) w.

(** What the per-frame operations may change: the tables stay as they are,
    no object is allocated or dropped, [matrixAutoUpdate] keeps its value and
    an object outside both tables keeps all of its fields. *)
Definition frame_preserved (w w' : World) : Prop :=
  patternMarkers w' = patternMarkers w ∧
  barcodeMarkers w' = barcodeMarkers w ∧
  ∀ l, match heap w !! l, heap w' !! l with
       | Some o, Some o' =>
           matrixAutoUpdate o' = matrixAutoUpdate o ∧ (¬ registered w l → o' = o)
       | None, None => True
       | _, _ => False
       end.

Definition preserves {A} (m : M A) : Prop := ∀ w, frame_preserved w (m w).2.

(** ** [artoolkit.createThreeScene] *)

(** What the constructors of the 3D library hand back: a texture as
    [new THREE.Texture(video)] leaves it, a material with the defaults of
    [new THREE.MeshBasicMaterial], and the projection matrix of
    [new THREE.PerspectiveCamera(45, 1, 1, 1000)]. *)
Variable Texture_new : Texture.
Variable MeshBasicMaterial_new : Material.
Variable PerspectiveCamera_projection : list num.

(** Everything [createThreeScene] builds: the returned object's four
    references, and the texture, the video plane with its geometry and
    material, the arguments the two cameras are constructed with, and the
    [children] lists of the objects it creates. *)
Record SceneParts := mkSceneParts {
  arScene : ThreeARScene;
  videoTex : Texture;
  plane : loc;
  planeGeometry : Z * Z;
  planeMaterial : Material;
  videoCameraFrustum : list Z;   (* left, right, top, bottom, near, far *)
  cameraLens : list Z;           (* fov, aspect, near, far *)
  children : gmap loc (list loc)
}.

(** [parent.add(child)] on the [children] lists. *)
Definition Object3D_add (parent child : loc) (ch : gmap loc (list loc)) :
    gmap loc (list loc) :=
  <[parent := default [] (ch !! parent) ++ [child]]> ch.

(** Meshes, cameras and scenes are [Object3D]s; each constructor call
    allocates one. *)
Definition createThreeScene : M SceneParts :=
  let videoTex := Texture_new in
  let videoTex := mkTexture LinearFilter (flipY videoTex) (needsUpdate videoTex) in
  let videoTex := mkTexture (minFilter videoTex) false (needsUpdate videoTex) in
  let material := mkMaterial videoTex_ref DoubleSide
                    (depthTest MeshBasicMaterial_new) (depthWrite MeshBasicMaterial_new) in
  let* plane := new_Object3D in
  let material := mkMaterial (material_map material) (side material)
                    false (depthWrite material) in
  let material := mkMaterial (material_map material) (side material)
                    (depthTest material) false in
  let* videoCamera := new_Object3D in
  let* videoScene := new_Object3D in
  let ch := Object3D_add videoScene plane ∅ in
  let ch := Object3D_add videoScene videoCamera ch in
  let* scene := new_Object3D in
  let* camera := new_Object3D in
  do modify (set_projectionMatrix (mkMatrix4 PerspectiveCamera_projection)) then
  let ch := Object3D_add scene camera ch in
  do modify (λ w, set_heap (alter (set_matrixAutoUpdate false) camera (heap w)) w) then
  ret (mkSceneParts (mkThreeARScene scene videoScene camera videoCamera)
         videoTex plane (2, 2) material [-1; 1; -1; 1; -1; 1] [45; 1; 1; 1000] ch).

(** ** Sequences of calls *)

(** What the page does after start-up: it registers markers and runs
    [process] once per frame. *)
Inductive ApiCall :=
  | call_createThreeMarker (markerUID : Z)
  | call_createThreeBarcodeMarker (markerUID : Z)
  | call_process (frame : Frame).

Definition api_step (c : ApiCall) (w : World) : World :=
  match c with
  | call_createThreeMarker uid => (createThreeMarker uid w).2
  | call_createThreeBarcodeMarker uid => (createThreeBarcodeMarker uid w).2
  | call_process frame => (process frame w).2
  end.

Definition run_api (cs : list ApiCall) (w : World) : World :=
  foldl (λ w c, api_step c w) w cs.

(** The tracker hands over 4x4 matrices only. *)
Definition frame16 (frame : Frame) : Prop :=
  (∀ r, r ∈ reports frame → length r.2 = 16%nat) ∧ length (cameraAfter frame) = 16%nat.

Definition well_sized (c : ApiCall) : Prop :=
  match c with
  | call_process frame => frame16 frame
  | _ => True
  end.

(** No object is registered twice: not under two keys of one table, and
    not in both tables. *)
Definition unaliased (w : World) : Prop :=
  (∀ k1 k2 l, patternMarkers w !! k1 = Some l → patternMarkers w !! k2 = Some l → k1 = k2) ∧
  (∀ k1 k2 l, barcodeMarkers w !! k1 = Some l → barcodeMarkers w !! k2 = Some l → k1 = k2) ∧
  (∀ k1 k2 l, patternMarkers w !! k1 = Some l → barcodeMarkers w !! k2 ≠ Some l).

(** Every registered object has [matrixAutoUpdate = false]. *)
Definition markers_fixed (w : World) : Prop :=
  ∀ l o, registered w l → heap w !! l = Some o → matrixAutoUpdate o = false.

(** The objects [createThreeScene] allocates, in the order of the calls. *)
Definition scene_objects (parts : SceneParts) : list loc :=
  [plane parts; videoCamera (arScene parts); videoScene (arScene parts);
   scene (arScene parts); camera (arScene parts)].

(** What holds of every world the calls above can produce. *)
Definition api_invariant (w : World) : Prop :=
  tables_closed w ∧
  object_matrices16 (heap w) ∧
  length (elements (projectionMatrix w)) = 16%nat ∧
  unaliased w ∧
  markers_fixed w.

(** The only exception [m] can throw is a [RangeError]. *)
Definition only_RangeError {A} (m : M A) : Prop :=
  ∀ w e w', m w = (Throw e, w') → e = RangeError.

(** [m] leaves the camera's projection matrix alone. *)
Definition keeps_projection {A} (m : M A) : Prop :=
  ∀ w, projectionMatrix (m w).2 = projectionMatrix w.

(** ** Results: typed arrays and [setFromArray] *)

Lemma typed_array_set_same_length (dst src : list num) :
  length src = length dst → typed_array_set dst src = Some src.
Proof.
  intros H. unfold typed_array_set. case_decide; [|lia].
  rewrite H, drop_all, app_nil_r. done.
Qed.

Lemma typed_array_set_length (dst src e : list num) :
  typed_array_set dst src = Some e → length e = length dst.
Proof.
  unfold typed_array_set. case_decide; [|done]. intros [= <-].
  rewrite length_app, length_drop. lia.
Qed.

Lemma set_heap_id (w : World) : set_heap (heap w) w = w.
Proof. by destruct w. Qed.

(** Two stores built by updates at [l] are compared pointwise, at [l] and
    away from it. *)
Ltac store_eq_at l :=
  let j := fresh "j" in
  apply map_eq; intros j; destruct (decide (l = j)) as [<-|?];
  [ rewrite ?lookup_alter_eq, ?lookup_insert_eq
  | rewrite ?lookup_alter_ne, ?lookup_insert_ne by done ].

Lemma alter_absent {A} (f : A → A) (l : loc) (h : gmap loc A) :
  h !! l = None → alter f l h = h.
Proof. intros E. store_eq_at l; [by rewrite E|done]. Qed.

Lemma track_object_run (obj : option loc) (w : World) :
  object_matrices16 (heap w) →
  length (transformationMatrix w) = 16%nat →
  track_object obj w
  = (Normal tt, set_heap (track_heap (transformationMatrix w) obj (heap w)) w).
Proof.
  intros H16 Hm. destruct obj as [l|]; simpl; [|by rewrite set_heap_id].
  unfold bind, gets, object_matrix_setFromArray, write_visible, modify.
  destruct (heap w !! l) as [o|] eqn:E.
  - unfold setFromArray.
    rewrite typed_array_set_same_length by (rewrite (H16 l o E); done).
    unfold set_heap; simpl. do 2 f_equal.
    store_eq_at l; [by rewrite E|done].
  - simpl. by rewrite !alter_absent.
Qed.

Lemma tracked_matrix16 (m : list num) (o : Object3D) :
  length m = 16%nat → length (elements (matrix (tracked m o))) = 16%nat.
Proof. done. Qed.

Lemma track_heap_matrices16 (m : list num) (obj : option loc) (h : gmap loc Object3D) :
  length m = 16%nat → object_matrices16 h → object_matrices16 (track_heap m obj h).
Proof.
  intros Hm H16. destruct obj as [l|]; [|done]. intros j o. simpl.
  destruct (decide (l = j)) as [<-|Hne].
  - rewrite lookup_alter_eq. destruct (h !! l); [|done]. by intros [= <-].
  - rewrite lookup_alter_ne by done. apply H16.
Qed.

Lemma onGetMarker_run (mk : Marker) (w : World) :
  object_matrices16 (heap w) →
  length (transformationMatrix w) = 16%nat →
  onGetMarker mk w = (Normal tt, after_report mk w).
Proof.
  intros H16 Hm. unfold onGetMarker, bind at 1, gets at 1.
  unfold bind at 1. rewrite track_object_run by done.
  unfold bind, gets. simpl.
  rewrite track_object_run; simpl; [done| |done].
  by apply track_heap_matrices16.
Qed.

Lemma lookup_track_heap (m : list num) (obj : option loc) (h : gmap loc Object3D) (l : loc) :
  track_heap m obj h !! l
  = if decide (obj = Some l) then tracked m <$> h !! l else h !! l.
Proof.
  destruct obj as [l'|]; simpl.
  - case_decide as E.
    + simplify_eq. apply lookup_alter_eq.
    + apply lookup_alter_ne. congruence.
  - try case_decide; done.
Qed.

Lemma after_report_reported (mk : Marker) (w : World) (l : loc) (o : Object3D) :
  reported w mk l → heap w !! l = Some o →
  ∃ o', heap (after_report mk w) !! l = Some o' ∧
        elements (matrix o') = transformationMatrix w ∧
        visible o' = true ∧
        matrixAutoUpdate o' = matrixAutoUpdate o.
Proof.
  unfold after_report, reported. intros Hrep Hl. simpl.
  rewrite !lookup_track_heap, Hl.
  repeat case_decide; simpl; eauto. tauto.
Qed.

Lemma after_report_not_reported (mk : Marker) (w : World) (l : loc) :
  ¬ reported w mk l → heap (after_report mk w) !! l = heap w !! l.
Proof.
  unfold after_report, reported. intros Hrep. simpl.
  rewrite !lookup_track_heap. repeat case_decide; tauto.
Qed.

Lemma setFromArray_same_type (this : Matrix4) (a : list num) :
  length (elements this) = 16%nat →
  length a = 16%nat →
  setFromArray this a = (Normal undefined, mkMatrix4 a) ∧
  ∀ l, (setFromArray this a).1 ≠ Normal (objref l).
Proof.
  intros Ht Ha. unfold setFromArray.
  rewrite typed_array_set_same_length by congruence.
  split; [done|]. intros l. simpl. discriminate.
Qed.

Lemma typed_array_set_converting_fmap {A} (convert : A → num)
    (dst : list num) (src : list A) :
  typed_array_set_converting convert dst src = typed_array_set dst (convert <$> src).
Proof. unfold typed_array_set_converting, typed_array_set. by rewrite length_fmap. Qed.

(** C8: on a [Matrix4] (16 entries), [setFromArray] with a 16-entry array
    leaves in [elements], in the same order, the entries of the array
    converted to the element type of [elements]; they are the entries
    themselves when the array has that element type already.  The call
    returns [undefined], not a reference to the matrix, so it cannot be
    chained. *)
Theorem setFromArray_stores_converted_values {A} (convert : A → num)
    (this : Matrix4) (a : list A) (b : list num) :
  length (elements this) = 16%nat →
  length a = 16%nat →
  length b = 16%nat →
  setFromArray_of convert this a = (Normal undefined, mkMatrix4 (convert <$> a)) ∧
  setFromArray this b = (Normal undefined, mkMatrix4 b) ∧
  ∀ l, (setFromArray_of convert this a).1 ≠ Normal (objref l) ∧
       (setFromArray this b).1 ≠ Normal (objref l).
Proof.
  intros Ht Ha Hb.
  destruct (setFromArray_same_type this b Ht Hb) as [Hrun Hret].
  assert (setFromArray_of convert this a = (Normal undefined, mkMatrix4 (convert <$> a)))
    as Hconv.
  { unfold setFromArray_of. rewrite typed_array_set_converting_fmap.
    by rewrite typed_array_set_same_length by (rewrite length_fmap; congruence). }
  split; [done|]. split; [done|]. intros l. split; [|apply Hret].
  by rewrite Hconv.
Qed.

(** C2: [onGetMarker] on a report: an object found in [patternMarkers] under
    [idPatt], and likewise one found in [barcodeMarkers] under [idMatrix],
    ends with its matrix holding the tracker's transformation matrix and with
    [visible = true]; every other object is left as it was, and when neither
    lookup finds an entry nothing at all changes. *)
Theorem onGetMarker_tracks_registered_objects (mk : Marker) (w : World) :
  object_matrices16 (heap w) →
  length (transformationMatrix w) = 16%nat →
  ∃ w', onGetMarker mk w = (Normal tt, w') ∧
    (∀ l o, reported w mk l → heap w !! l = Some o →
       ∃ o', heap w' !! l = Some o' ∧
             elements (matrix o') = transformationMatrix w ∧
             visible o' = true ∧
             matrixAutoUpdate o' = matrixAutoUpdate o) ∧
    (∀ l, ¬ reported w mk l → heap w' !! l = heap w !! l) ∧
    (patternMarkers w !! idPatt mk = None →
     barcodeMarkers w !! idMatrix mk = None → w' = w).
Proof.
  intros H16 Hm. exists (after_report mk w).
  split; [by apply onGetMarker_run|].
  split; [|split].
  - intros l o. apply after_report_reported.
  - apply after_report_not_reported.
  - unfold after_report. intros -> ->. simpl. apply set_heap_id.
Qed.

(** ** Results: the marker tables *)

Lemma createThreeMarker_run (markerUID : Z) (w : World) :
  let l := fresh (dom (heap w)) in
  createThreeMarker markerUID w
  = (Normal l,
     set_patternMarkers (<[markerUID := l]> (patternMarkers w))
       (set_heap (<[l := set_matrixAutoUpdate false Object3D_new]> (heap w)) w)).
Proof.
  simpl. unfold createThreeMarker, bind, new_Object3D, modify, ret. simpl.
  do 2 f_equal. unfold set_heap; simpl. f_equal.
  store_eq_at (fresh (dom (heap w))); done.
Qed.

Lemma createThreeBarcodeMarker_run (markerUID : Z) (w : World) :
  let l := fresh (dom (heap w)) in
  createThreeBarcodeMarker markerUID w
  = (Normal l,
     set_barcodeMarkers (<[markerUID := l]> (barcodeMarkers w))
       (set_heap (<[l := set_matrixAutoUpdate false Object3D_new]> (heap w)) w)).
Proof.
  simpl. unfold createThreeBarcodeMarker, bind, new_Object3D, modify, ret. simpl.
  do 2 f_equal. unfold set_heap; simpl. f_equal.
  store_eq_at (fresh (dom (heap w))); done.
Qed.

Lemma fresh_not_allocated (h : gmap loc Object3D) : h !! fresh (dom h) = None.
Proof. apply not_elem_of_dom, is_fresh. Qed.

Lemma set_visible_idemp (b : bool) (o : option Object3D) :
  set_visible b <$> (set_visible b <$> o) = set_visible b <$> o.
Proof. by destruct o. Qed.

Lemma lookup_hide_locs (ls : list loc) (h : gmap loc Object3D) (l : loc) :
  hide_locs ls h !! l
  = if decide (l ∈ ls) then set_visible false <$> h !! l else h !! l.
Proof.
  revert h. induction ls as [|x ls IH]; intros h.
  - destruct (decide (l ∈ [])) as [E|E]; [by apply elem_of_nil in E|done].
  - change (hide_locs (x :: ls) h) with (hide_locs ls (alter (set_visible false) x h)).
    rewrite IH.
    destruct (decide (x = l)) as [->|Hne].
    + rewrite lookup_alter_eq, set_visible_idemp.
      destruct (decide (l ∈ ls)) as [E1|E1], (decide (l ∈ l :: ls)) as [E2|E2];
        try done; exfalso; rewrite elem_of_cons in E2; tauto.
    + rewrite lookup_alter_ne by done.
      destruct (decide (l ∈ ls)) as [E1|E1], (decide (l ∈ x :: ls)) as [E2|E2];
        try done; exfalso; rewrite elem_of_cons in E2; intuition congruence.
Qed.

Lemma elem_of_table_objects (t : gmap Z loc) (l : loc) :
  l ∈ table_objects t ↔ ∃ k, t !! k = Some l.
Proof.
  unfold table_objects. rewrite list_elem_of_fmap. split.
  - intros [[k l'] [-> Hin]]. exists k. by apply elem_of_map_to_list.
  - intros [k Hk]. exists (k, l). split; [done|]. by apply elem_of_map_to_list.
Qed.

Lemma set_heap_set_heap (h1 h2 : gmap loc Object3D) (w : World) :
  set_heap h2 (set_heap h1 w) = set_heap h2 w.
Proof. done. Qed.

Section hide_loop.
(** One of the two tables, as a field that writes to the store leave alone. *)
Variable table : World → gmap Z loc.
Hypothesis table_set_heap : ∀ h w, table (set_heap h w) = table w.

Lemma for_each_hide_entry (kls : list (Z * loc)) (w : World) :
  (∀ k l, (k, l) ∈ kls → table w !! k = Some l) →
  for_each (kls.*1) (hide_entry table) w
  = (Normal tt, set_heap (hide_locs (kls.*2) (heap w)) w).
Proof.
  revert w. induction kls as [|[k l] kls IH]; intros w Hin; simpl.
  - unfold ret. by rewrite set_heap_id.
  - unfold bind at 1, hide_entry at 1, bind at 1, gets at 1.
    rewrite (Hin k l) by apply list_elem_of_here.
    unfold write_visible, modify. rewrite IH.
    + by rewrite set_heap_set_heap.
    + intros k' l' Hk'. rewrite table_set_heap. by apply Hin, list_elem_of_further.
Qed.

Lemma hide_table_run (w : World) :
  for_each (for_in_keys (table w)) (hide_entry table) w
  = (Normal tt, set_heap (hide_locs (table_objects (table w)) (heap w)) w).
Proof.
  apply for_each_hide_entry. intros k l. apply elem_of_map_to_list.
Qed.
End hide_loop.

Lemma hide_markers_run (w : World) : hide_markers w = (Normal tt, after_hide w).
Proof.
  unfold hide_markers, bind at 1, gets at 1. unfold bind at 1.
  rewrite (hide_table_run patternMarkers) by done.
  unfold bind at 1, gets at 1.
  by rewrite (hide_table_run barcodeMarkers).
Qed.

Lemma lookup_after_hide (w : World) (l : loc) :
  heap (after_hide w) !! l
  = if decide (l ∈ table_objects (patternMarkers w) ∨ l ∈ table_objects (barcodeMarkers w))
    then set_visible false <$> heap w !! l else heap w !! l.
Proof.
  unfold after_hide. simpl. rewrite !lookup_hide_locs.
  repeat case_decide; try done; try tauto. by rewrite set_visible_idemp.
Qed.

Lemma after_hide_matrices16 (w : World) :
  object_matrices16 (heap w) → object_matrices16 (heap (after_hide w)).
Proof.
  intros H16 l o. rewrite lookup_after_hide. case_decide; [|apply H16].
  destruct (heap w !! l) as [o0|] eqn:E; [|done]. intros [= <-]. apply (H16 l o0 E).
Qed.

Lemma registered_table_objects (w : World) (l : loc) :
  registered w l ↔
  l ∈ table_objects (patternMarkers w) ∨ l ∈ table_objects (barcodeMarkers w).
Proof. unfold registered. by rewrite !elem_of_table_objects. Qed.

(** ** Results: one frame *)

Lemma after_report_tables (mk : Marker) (w : World) :
  patternMarkers (after_report mk w) = patternMarkers w ∧
  barcodeMarkers (after_report mk w) = barcodeMarkers w ∧
  projectionMatrix (after_report mk w) = projectionMatrix w ∧
  cameraMatrix (after_report mk w) = cameraMatrix w.
Proof. done. Qed.

Lemma after_report_matrices16 (mk : Marker) (w : World) :
  length (transformationMatrix w) = 16%nat →
  object_matrices16 (heap w) → object_matrices16 (heap (after_report mk w)).
Proof.
  intros Hm H16. unfold after_report. simpl.
  apply track_heap_matrices16; [done|]. by apply track_heap_matrices16.
Qed.

Lemma after_report_visible (mk : Marker) (w : World) (l : loc) (o' : Object3D) :
  heap (after_report mk w) !! l = Some o' →
  ∃ o, heap w !! l = Some o ∧
       (visible o' = true ↔ visible o = true ∨ reported w mk l).
Proof.
  unfold after_report, reported. simpl. rewrite !lookup_track_heap.
  destruct (heap w !! l) as [o|] eqn:E;
    repeat case_decide; simpl; intros [= <-]; exists o; (split; [done|]);
    simpl; tauto.
Qed.

Lemma after_reports_tables (rs : list (Marker * list num)) (w : World) :
  patternMarkers (after_reports rs w) = patternMarkers w ∧
  barcodeMarkers (after_reports rs w) = barcodeMarkers w ∧
  projectionMatrix (after_reports rs w) = projectionMatrix w ∧
  cameraMatrix (after_reports rs w) = cameraMatrix w.
Proof.
  revert w. induction rs as [|r rs IH]; intros w; [done|].
  change (after_reports (r :: rs) w)
    with (after_reports rs (after_report r.1 (set_transformationMatrix r.2 w))).
  destruct (IH (after_report r.1 (set_transformationMatrix r.2 w))) as (-> & -> & -> & ->).
  done.
Qed.

Lemma after_reports_visible (rs : list (Marker * list num)) (w : World)
    (l : loc) (o' : Object3D) :
  heap (after_reports rs w) !! l = Some o' →
  ∃ o, heap w !! l = Some o ∧
       (visible o' = true ↔
        visible o = true ∨ ∃ r, r ∈ rs ∧ reported w r.1 l).
Proof.
  revert w. induction rs as [|r rs IH]; intros w Hl.
  - exists o'. split; [done|]. split; [tauto|]. intros [H|(r & Hr & _)]; [done|].
    by apply elem_of_nil in Hr.
  - change (after_reports (r :: rs) w)
      with (after_reports rs (after_report r.1 (set_transformationMatrix r.2 w))) in Hl.
    apply IH in Hl as (o1 & Ho1 & Hv1).
    apply after_report_visible in Ho1 as (o & Ho & Hv).
    exists o. split; [done|]. rewrite Hv1, Hv. clear.
    unfold reported. simpl. split.
    + intros [[H|H]|(r' & Hr' & H)]; [tauto| |].
      * right. exists r. split; [apply list_elem_of_here|done].
      * right. exists r'. split; [by apply list_elem_of_further|done].
    + intros [H|(r' & [->|Hr']%elem_of_cons & H)]; [tauto|tauto|].
      right. by exists r'.
Qed.

Lemma artoolkit_reports_run (rs : list (Marker * list num)) (w : World) :
  object_matrices16 (heap w) →
  (∀ r, r ∈ rs → length r.2 = 16%nat) →
  for_each rs (λ r, do modify (set_transformationMatrix r.2) then onGetMarker r.1) w
  = (Normal tt, after_reports rs w) ∧
  object_matrices16 (heap (after_reports rs w)).
Proof.
  revert w. induction rs as [|r rs IH]; intros w H16 Hrs; [done|].
  change (after_reports (r :: rs) w)
    with (after_reports rs (after_report r.1 (set_transformationMatrix r.2 w))).
  assert (length r.2 = 16%nat) as Hr by apply Hrs, list_elem_of_here.
  simpl. unfold bind at 1. unfold bind at 1, modify at 1.
  rewrite onGetMarker_run by done.
  apply IH; [|intros; by apply Hrs, list_elem_of_further].
  by apply after_report_matrices16.
Qed.

(** The world after [process(frame)] when no call throws. *)
Lemma process_run (frame : Frame) (w : World) :
  object_matrices16 (heap w) →
  length (elements (projectionMatrix w)) = 16%nat →
  (∀ r, r ∈ reports frame → length r.2 = 16%nat) →
  length (cameraAfter frame) = 16%nat →
  process frame w
  = (Normal tt,
     set_projectionMatrix (mkMatrix4 (cameraAfter frame))
       (set_cameraMatrix (cameraAfter frame)
          (after_reports (reports frame) (after_hide w)))).
Proof.
  intros H16 Hp Hrs Hc. unfold process, bind at 1.
  rewrite hide_markers_run. unfold bind at 1, artoolkit_process, bind at 1.
  destruct (artoolkit_reports_run (reports frame) (after_hide w)) as [-> _];
    [by apply after_hide_matrices16|done|].
  unfold modify, bind, gets, camera_projectionMatrix_setFromArray, setFromArray, ret.
  simpl. rewrite typed_array_set_same_length; [done|].
  destruct (after_reports_tables (reports frame) (after_hide w)) as (_ & _ & -> & _).
  simpl. congruence.
Qed.

(** ** Results: what the per-frame operations leave alone *)

Lemma frame_preserved_refl (w : World) : frame_preserved w w.
Proof.
  split; [done|]. split; [done|]. intros l. by destruct (heap w !! l).
Qed.

Lemma frame_preserved_registered (w w' : World) (l : loc) :
  frame_preserved w w' → registered w' l ↔ registered w l.
Proof. intros (Hp & Hb & _). unfold registered. by rewrite Hp, Hb. Qed.

Lemma frame_preserved_trans (w1 w2 w3 : World) :
  frame_preserved w1 w2 → frame_preserved w2 w3 → frame_preserved w1 w3.
Proof.
  intros H12 H23.
  pose proof (λ l, frame_preserved_registered w1 w2 l H12) as Hreg.
  destruct H12 as (Hp1 & Hb1 & Hh1), H23 as (Hp2 & Hb2 & Hh2).
  split; [congruence|]. split; [congruence|]. intros l.
  specialize (Hh1 l). specialize (Hh2 l). specialize (Hreg l).
  destruct (heap w1 !! l), (heap w2 !! l), (heap w3 !! l); try done.
  destruct Hh1 as [Ha1 Hu1], Hh2 as [Ha2 Hu2]. split; [congruence|].
  intros Hn. rewrite Hu2, Hu1; tauto.
Qed.

Lemma frame_preserved_same_store (w w' : World) :
  heap w' = heap w → patternMarkers w' = patternMarkers w →
  barcodeMarkers w' = barcodeMarkers w → frame_preserved w w'.
Proof.
  intros Hh Hp Hb. split; [done|]. split; [done|]. intros l. rewrite Hh.
  by destruct (heap w !! l).
Qed.

Lemma frame_preserved_update (w : World) (l : loc) (f : Object3D → Object3D) :
  registered w l →
  (∀ o, matrixAutoUpdate (f o) = matrixAutoUpdate o) →
  frame_preserved w (set_heap (alter f l (heap w)) w).
Proof.
  intros Hreg Hf. split; [done|]. split; [done|]. intros j. simpl.
  destruct (decide (l = j)) as [<-|Hne].
  - rewrite lookup_alter_eq. destruct (heap w !! l); simpl; [|done].
    split; [apply Hf|tauto].
  - rewrite lookup_alter_ne by done. by destruct (heap w !! j).
Qed.

Lemma preserves_bind {A B} (m : M A) (k : A → M B) :
  preserves m → (∀ a, preserves (k a)) → preserves (bind m k).
Proof.
  intros Hm Hk w. unfold bind. specialize (Hm w).
  destruct (m w) as [[a|e] w']; simpl in *; [|done].
  eapply frame_preserved_trans; [done|apply Hk].
Qed.

Lemma preserves_for_each {A} (xs : list A) (body : A → M unit) :
  (∀ x, preserves (body x)) → preserves (for_each xs body).
Proof.
  intros Hb. induction xs as [|x xs IH]; simpl.
  - intros w. apply frame_preserved_refl.
  - by apply preserves_bind.
Qed.

Lemma preserves_gets {A} (f : World → A) : preserves (gets f).
Proof. intros w. apply frame_preserved_refl. Qed.

Lemma write_visible_preserved (l : loc) (b : bool) (w : World) :
  registered w l → frame_preserved w (write_visible l b w).2.
Proof. intros Hreg. by apply frame_preserved_update. Qed.

Lemma object_matrix_setFromArray_preserved (l : loc) (m : list num) (w : World) :
  registered w l → frame_preserved w (object_matrix_setFromArray l m w).2.
Proof.
  intros Hreg. unfold object_matrix_setFromArray.
  destruct (heap w !! l) as [o|] eqn:E; [|apply frame_preserved_refl].
  destruct (setFromArray (matrix o) m) as [[v|e] mat]; [|apply frame_preserved_refl].
  simpl. replace (<[l:=set_matrix mat o]> (heap w))
    with (alter (set_matrix mat) l (heap w)).
  - by apply frame_preserved_update.
  - store_eq_at l; [by rewrite E|done].
Qed.

Lemma track_object_preserved (obj : option loc) (w : World) :
  (∀ l, obj = Some l → registered w l) →
  frame_preserved w (track_object obj w).2.
Proof.
  intros Hreg. destruct obj as [l|]; simpl; [|apply frame_preserved_refl].
  specialize (Hreg l eq_refl). unfold bind at 1, gets at 1. unfold bind.
  pose proof (object_matrix_setFromArray_preserved l (transformationMatrix w) w Hreg) as H1.
  destruct (object_matrix_setFromArray l (transformationMatrix w) w) as [[v|e] w1];
    simpl in *; [|done].
  eapply frame_preserved_trans; [done|]. apply write_visible_preserved.
  by apply (frame_preserved_registered w w1).
Qed.

Lemma onGetMarker_preserves (mk : Marker) : preserves (onGetMarker mk).
Proof.
  intros w. unfold onGetMarker, bind at 1, gets at 1. unfold bind at 1.
  pose proof (track_object_preserved (patternMarkers w !! idPatt mk) w) as H1.
  destruct (track_object (patternMarkers w !! idPatt mk) w) as [[[]|e] w1];
    simpl in *; [|apply H1; intros l Hl; left; eauto].
  assert (frame_preserved w w1) as H1' by (apply H1; intros l Hl; left; eauto).
  eapply frame_preserved_trans; [done|].
  unfold bind, gets. apply track_object_preserved.
  intros l Hl. right. eauto.
Qed.

Lemma hide_entry_preserves (table : World → gmap Z loc) :
  (∀ w k l, table w !! k = Some l → registered w l) →
  ∀ i, preserves (hide_entry table i).
Proof.
  intros Hreg i w. unfold hide_entry, bind, gets.
  destruct (table w !! i) as [l|] eqn:E; [|apply frame_preserved_refl].
  apply write_visible_preserved. eauto.
Qed.

Lemma hide_pattern_entry_preserves (i : Z) : preserves (hide_entry patternMarkers i).
Proof. apply hide_entry_preserves. intros w k l H. left. eauto. Qed.

Lemma hide_barcode_entry_preserves (i : Z) : preserves (hide_entry barcodeMarkers i).
Proof. apply hide_entry_preserves. intros w k l H. right. eauto. Qed.

Lemma preserves_ret {A} (a : A) : preserves (ret a).
Proof. intros w. apply frame_preserved_refl. Qed.

Lemma preserves_set_transformationMatrix (m : list num) :
  preserves (modify (set_transformationMatrix m)).
Proof. intros w. by apply frame_preserved_same_store. Qed.

Lemma preserves_set_cameraMatrix (m : list num) :
  preserves (modify (set_cameraMatrix m)).
Proof. intros w. by apply frame_preserved_same_store. Qed.

Create HintDb frame discriminated.
Hint Resolve preserves_bind preserves_for_each preserves_gets preserves_ret
  onGetMarker_preserves hide_pattern_entry_preserves hide_barcode_entry_preserves
  preserves_set_transformationMatrix preserves_set_cameraMatrix : frame.

Lemma hide_markers_preserves : preserves hide_markers.
Proof. unfold hide_markers. auto 10 with frame. Qed.

Lemma artoolkit_process_preserves (frame : Frame) : preserves (artoolkit_process frame).
Proof. unfold artoolkit_process. auto 10 with frame. Qed.

Lemma camera_projectionMatrix_setFromArray_preserves (m : list num) :
  preserves (camera_projectionMatrix_setFromArray m).
Proof.
  intros w. unfold camera_projectionMatrix_setFromArray.
  destruct (setFromArray (projectionMatrix w) m) as [[v|e] mat];
    [by apply frame_preserved_same_store|apply frame_preserved_refl].
Qed.

Hint Resolve hide_markers_preserves artoolkit_process_preserves
  camera_projectionMatrix_setFromArray_preserves : frame.

Lemma process_preserves (frame : Frame) : preserves (process frame).
Proof. unfold process. auto 10 with frame. Qed.

Lemma artoolkit_process_run (frame : Frame) (w : World) :
  object_matrices16 (heap w) →
  (∀ r, r ∈ reports frame → length r.2 = 16%nat) →
  artoolkit_process frame w
  = (Normal tt, set_cameraMatrix (cameraAfter frame) (after_reports (reports frame) w)).
Proof.
  intros H16 Hrs. unfold artoolkit_process, bind at 1.
  by destruct (artoolkit_reports_run (reports frame) w H16 Hrs) as [-> _].
Qed.

Lemma after_hide_registered (w : World) (l : loc) :
  registered w l → heap (after_hide w) !! l = set_visible false <$> heap w !! l.
Proof.
  intros Hreg. rewrite lookup_after_hide.
  apply registered_table_objects in Hreg. by case_decide.
Qed.

Lemma after_hide_unregistered (w : World) (l : loc) :
  ¬ registered w l → heap (after_hide w) !! l = heap w !! l.
Proof.
  intros Hreg. rewrite lookup_after_hide.
  rewrite registered_table_objects in Hreg. by case_decide.
Qed.

(** ** The claims about the scene functions *)

(** C3: [process] starts by setting [visible = false] on every object stored
    in [patternMarkers] and in [barcodeMarkers]; the tracker is handed the
    frame in that world.  When [process] returns, a registered object is
    visible exactly when some report of that frame named an id it is
    registered under. *)
Theorem process_hides_then_shows_reported (frame : Frame) (w : World) :
  object_matrices16 (heap w) →
  length (elements (projectionMatrix w)) = 16%nat →
  (∀ r, r ∈ reports frame → length r.2 = 16%nat) →
  length (cameraAfter frame) = 16%nat →
  ∃ w1 w2 w',
    hide_markers w = (Normal tt, w1) ∧
    (∀ l o, registered w l → heap w1 !! l = Some o → visible o = false) ∧
    artoolkit_process frame w1 = (Normal tt, w2) ∧
    process frame w = (Normal tt, w') ∧
    heap w' = heap w2 ∧
    (∀ l o, registered w l → heap w' !! l = Some o →
       (visible o = true ↔ ∃ r, r ∈ reports frame ∧ reported w r.1 l)).
Proof.
  intros H16 Hp Hrs Hc.
  pose proof (after_hide_matrices16 w H16) as H16'.
  assert (∀ l o, registered w l → heap (after_hide w) !! l = Some o → visible o = false)
    as Hhidden.
  { intros l o Hreg. rewrite after_hide_registered by done.
    destruct (heap w !! l); [|done]. by intros [= <-]. }
  eexists _, _, _. split; [apply hide_markers_run|]. split; [done|].
  split; [by apply artoolkit_process_run|].
  split; [by apply process_run|]. split; [done|].
  intros l o Hreg Hl. simpl in Hl.
  apply after_reports_visible in Hl as (o1 & Ho1 & Hv).
  rewrite Hv, (Hhidden l o1 Hreg Ho1). split.
  - intros [?|H]; [done|apply H].
  - intros H. right. apply H.
Qed.

(** C4: when [process] returns, the scene camera's [projectionMatrix]
    holds the values of [artoolkit.getCameraMatrix()] as the tracker exposes
    them after it was given the frame. *)
Theorem process_applies_camera_matrix (frame : Frame) (w : World) :
  object_matrices16 (heap w) →
  length (elements (projectionMatrix w)) = 16%nat →
  (∀ r, r ∈ reports frame → length r.2 = 16%nat) →
  length (cameraAfter frame) = 16%nat →
  ∃ w', process frame w = (Normal tt, w') ∧
        cameraMatrix w' = cameraAfter frame ∧
        elements (projectionMatrix w') = cameraMatrix w'.
Proof.
  intros H16 Hp Hrs Hc. eexists. split; [by apply process_run|]. done.
Qed.


(** C10: neither [process] nor [onGetMarker] adds, removes or replaces a
    table entry, whether the call returns or throws; they allocate nothing,
    change only objects that are registered and never their
    [matrixAutoUpdate] flag.  The key set of a table grows only through its
    constructor. *)
Theorem per_frame_operations_keep_tables (frame : Frame) (mk : Marker)
    (markerUID : Z) (w : World) :
  frame_preserved w (process frame w).2 ∧
  frame_preserved w (onGetMarker mk w).2 ∧
  dom (patternMarkers (createThreeMarker markerUID w).2)
    = {[markerUID]} ∪ dom (patternMarkers w) ∧
  dom (barcodeMarkers (createThreeBarcodeMarker markerUID w).2)
    = {[markerUID]} ∪ dom (barcodeMarkers w).
Proof.
  split; [apply process_preserves|]. split; [apply onGetMarker_preserves|].
  rewrite createThreeMarker_run, createThreeBarcodeMarker_run. simpl.
  by rewrite !dom_insert_L.
Qed.

Lemma insert_matrices16 (l : loc) (o : Object3D) (h : gmap loc Object3D) :
  length (elements (matrix o)) = 16%nat →
  object_matrices16 h → object_matrices16 (<[l := o]> h).
Proof.
  intros Ho H16 j o'. destruct (decide (l = j)) as [<-|Hne].
  - rewrite lookup_insert_eq. by intros [= <-].
  - rewrite lookup_insert_ne by done. apply H16.
Qed.

Lemma fresh_not_in_tables (w : World) (k : Z) :
  tables_closed w →
  patternMarkers w !! k ≠ Some (fresh (dom (heap w))) ∧
  barcodeMarkers w !! k ≠ Some (fresh (dom (heap w))).
Proof.
  intros [Hp Hb]. pose proof (fresh_not_allocated (heap w)) as Hf.
  split; intros H.
  - apply Hp in H as [o Ho]. congruence.
  - apply Hb in H as [o Ho]. congruence.
Qed.

Lemma unregistered_object_kept {A} (m : M A) (w : World) (l : loc) :
  preserves m → ¬ registered w l → heap (m w).2 !! l = heap w !! l.
Proof.
  intros Hm Hreg. destruct (Hm w) as (_ & _ & Hh). specialize (Hh l).
  destruct (heap w !! l), (heap (m w).2 !! l); try done.
  destruct Hh as [_ Hh]. by rewrite Hh.
Qed.

(** The shape invariants hold initially and every operation keeps them, so
    they hold in every world the API can reach. *)

Lemma initial_world_invariants (projection transformation cam : list num) :
  tables_closed (initial_world projection transformation cam) ∧
  object_matrices16 (heap (initial_world projection transformation cam)).
Proof.
  split; [split|]; intros k l H; simpl in H; by rewrite lookup_empty in H.
Qed.

Lemma insert_tables_closed (l : loc) (o : Object3D) (w : World) :
  tables_closed w → tables_closed (set_heap (<[l := o]> (heap w)) w).
Proof.
  intros [Hp Hb]. split; intros k l' H; simpl in *.
  - destruct (decide (l = l')) as [<-|?];
      [by rewrite lookup_insert_eq|rewrite lookup_insert_ne by done; eauto].
  - destruct (decide (l = l')) as [<-|?];
      [by rewrite lookup_insert_eq|rewrite lookup_insert_ne by done; eauto].
Qed.

Lemma createThreeMarker_invariants (markerUID : Z) (w : World) :
  length (elements (matrix Object3D_new)) = 16%nat →
  tables_closed w → object_matrices16 (heap w) →
  tables_closed (createThreeMarker markerUID w).2 ∧
  object_matrices16 (heap (createThreeMarker markerUID w).2).
Proof.
  intros Hnew Hclosed H16. rewrite createThreeMarker_run. simpl.
  split; [|by apply insert_matrices16].
  destruct (insert_tables_closed (fresh (dom (heap w)))
              (set_matrixAutoUpdate false Object3D_new) w Hclosed) as [Hp Hb].
  split; [|done]. intros k l. simpl in *.
  destruct (decide (markerUID = k)) as [<-|?].
  - rewrite lookup_insert_eq. intros [= <-]. by rewrite lookup_insert_eq.
  - rewrite lookup_insert_ne by done. apply Hp.
Qed.

Lemma createThreeBarcodeMarker_invariants (markerUID : Z) (w : World) :
  length (elements (matrix Object3D_new)) = 16%nat →
  tables_closed w → object_matrices16 (heap w) →
  tables_closed (createThreeBarcodeMarker markerUID w).2 ∧
  object_matrices16 (heap (createThreeBarcodeMarker markerUID w).2).
Proof.
  intros Hnew Hclosed H16. rewrite createThreeBarcodeMarker_run. simpl.
  split; [|by apply insert_matrices16].
  destruct (insert_tables_closed (fresh (dom (heap w)))
              (set_matrixAutoUpdate false Object3D_new) w Hclosed) as [Hp Hb].
  split; [done|]. intros k l. simpl in *.
  destruct (decide (markerUID = k)) as [<-|?].
  - rewrite lookup_insert_eq. intros [= <-]. by rewrite lookup_insert_eq.
  - rewrite lookup_insert_ne by done. apply Hb.
Qed.

Lemma frame_preserved_closed (w w' : World) :
  frame_preserved w w' → tables_closed w → tables_closed w'.
Proof.
  intros (Hp & Hb & Hh) [Hcp Hcb].
  assert (∀ l, is_Some (heap w !! l) → is_Some (heap w' !! l)) as Hlive.
  { intros l [o Ho]. specialize (Hh l). rewrite Ho in Hh.
    destruct (heap w' !! l); [eauto|done]. }
  split; intros k l H; apply Hlive.
  - rewrite Hp in H. eauto.
  - rewrite Hb in H. eauto.
Qed.

Lemma process_invariants (frame : Frame) (w : World) :
  object_matrices16 (heap w) →
  length (elements (projectionMatrix w)) = 16%nat →
  (∀ r, r ∈ reports frame → length r.2 = 16%nat) →
  length (cameraAfter frame) = 16%nat →
  object_matrices16 (heap (process frame w).2) ∧
  length (elements (projectionMatrix (process frame w).2)) = 16%nat.
Proof.
  intros H16 Hp Hrs Hc. rewrite process_run by done. simpl. split; [|done].
  apply artoolkit_reports_run; [by apply after_hide_matrices16|done].
Qed.

(** C9: registering a marker id a second time replaces the table entry: the
    table then maps the id to the second object only, the first object is in
    neither table any more, no later report changes it, and a later report
    for that id moves and shows the second object.  This holds for
    [createThreeMarker] with [patternMarkers] and [idPatt], and for
    [createThreeBarcodeMarker] with [barcodeMarkers] and [idMatrix]. *)
Theorem re_registration_last_write_wins (markerUID : Z) (m : list num) (w : World) :
  tables_closed w →
  object_matrices16 (heap w) →
  length (elements (matrix Object3D_new)) = 16%nat →
  length m = 16%nat →
  (∃ l1 w1 l2 w2,
     createThreeMarker markerUID w = (Normal l1, w1) ∧
     createThreeMarker markerUID w1 = (Normal l2, w2) ∧
     l1 ≠ l2 ∧
     patternMarkers w2 !! markerUID = Some l2 ∧
     ¬ registered w2 l1 ∧
     ∀ mk,
       heap (onGetMarker mk (set_transformationMatrix m w2)).2 !! l1 = heap w2 !! l1 ∧
       (idPatt mk = markerUID →
        ∃ w3 o, onGetMarker mk (set_transformationMatrix m w2) = (Normal tt, w3) ∧
                heap w3 !! l2 = Some o ∧ elements (matrix o) = m ∧ visible o = true)) ∧
  (∃ l1 w1 l2 w2,
     createThreeBarcodeMarker markerUID w = (Normal l1, w1) ∧
     createThreeBarcodeMarker markerUID w1 = (Normal l2, w2) ∧
     l1 ≠ l2 ∧
     barcodeMarkers w2 !! markerUID = Some l2 ∧
     ¬ registered w2 l1 ∧
     ∀ mk,
       heap (onGetMarker mk (set_transformationMatrix m w2)).2 !! l1 = heap w2 !! l1 ∧
       (idMatrix mk = markerUID →
        ∃ w3 o, onGetMarker mk (set_transformationMatrix m w2) = (Normal tt, w3) ∧
                heap w3 !! l2 = Some o ∧ elements (matrix o) = m ∧ visible o = true)).
Proof.
  intros Hclosed H16 Hnew Hm.
  set (o0 := set_matrixAutoUpdate false Object3D_new).
  set (l1 := fresh (dom (heap w))).
  set (h1 := <[l1 := o0]> (heap w)).
  set (l2 := fresh (dom h1)).
  assert (l1 ≠ l2) as Hne.
  { intros Heq. pose proof (fresh_not_allocated h1) as Hf. fold l2 in Hf.
    rewrite <- Heq in Hf. unfold h1 in Hf. by rewrite lookup_insert_eq in Hf. }
  assert (object_matrices16 (<[l2 := o0]> h1)) as H16'.
  { by do 2 (apply insert_matrices16; [done|]). }
  split.
  - eexists l1, _, l2, _. split; [apply createThreeMarker_run|].
    split; [apply createThreeMarker_run|]. split; [done|]. simpl.
    split; [apply lookup_insert_eq|].
    assert (¬ registered
              (set_patternMarkers (<[markerUID:=l2]> (<[markerUID:=l1]> (patternMarkers w)))
                 (set_heap (<[l2:=o0]> h1) w)) l1) as Hunreg.
    { intros [[k Hk]|[k Hk]]; simpl in Hk.
      - destruct (decide (markerUID = k)) as [<-|Hk'].
        + rewrite lookup_insert_eq in Hk. congruence.
        + rewrite !lookup_insert_ne in Hk by done.
          by apply (proj1 (fresh_not_in_tables w k Hclosed)).
      - by apply (proj2 (fresh_not_in_tables w k Hclosed)). }
    split; [done|]. intros mk. split.
    + by apply (unregistered_object_kept (onGetMarker mk)); [apply onGetMarker_preserves|].
    + intros Hid. rewrite onGetMarker_run by done.
      destruct (after_report_reported mk
                  (set_transformationMatrix m
                     (set_patternMarkers
                        (<[markerUID:=l2]> (<[markerUID:=l1]> (patternMarkers w)))
                        (set_heap (<[l2:=o0]> h1) w))) l2 o0)
        as (o & Ho & Hel & Hvis & _).
      * left. simpl. rewrite Hid. apply lookup_insert_eq.
      * simpl. apply lookup_insert_eq.
      * eexists _, o. split; [reflexivity|]. split; [exact Ho|].
        split; [exact Hel|exact Hvis].
  - eexists l1, _, l2, _. split; [apply createThreeBarcodeMarker_run|].
    split; [apply createThreeBarcodeMarker_run|]. split; [done|]. simpl.
    split; [apply lookup_insert_eq|].
    assert (¬ registered
              (set_barcodeMarkers (<[markerUID:=l2]> (<[markerUID:=l1]> (barcodeMarkers w)))
                 (set_heap (<[l2:=o0]> h1) w)) l1) as Hunreg.
    { intros [[k Hk]|[k Hk]]; simpl in Hk.
      - by apply (proj1 (fresh_not_in_tables w k Hclosed)).
      - destruct (decide (markerUID = k)) as [<-|Hk'].
        + rewrite lookup_insert_eq in Hk. congruence.
        + rewrite !lookup_insert_ne in Hk by done.
          by apply (proj2 (fresh_not_in_tables w k Hclosed)). }
    split; [done|]. intros mk. split.
    + by apply (unregistered_object_kept (onGetMarker mk)); [apply onGetMarker_preserves|].
    + intros Hid. rewrite onGetMarker_run by done.
      destruct (after_report_reported mk
                  (set_transformationMatrix m
                     (set_barcodeMarkers
                        (<[markerUID:=l2]> (<[markerUID:=l1]> (barcodeMarkers w)))
                        (set_heap (<[l2:=o0]> h1) w))) l2 o0)
        as (o & Ho & Hel & Hvis & _).
      * right. simpl. rewrite Hid. apply lookup_insert_eq.
      * simpl. apply lookup_insert_eq.
      * eexists _, o. split; [reflexivity|]. split; [exact Ho|].
        split; [exact Hel|exact Hvis].
Qed.

(** ** Further results: bounds and exceptions *)

Lemma typed_array_set_too_long (dst src : list num) :
  (length dst < length src)%nat → typed_array_set dst src = None.
Proof. intros H. unfold typed_array_set. case_decide; [lia|done]. Qed.

(** X1: [setFromArray] with an array longer than the matrix throws a
    [RangeError] and leaves the matrix as it was. *)
Theorem setFromArray_too_long_throws (this : Matrix4) (a : list num) :
  (length (elements this) < length a)%nat →
  setFromArray this a = (Throw RangeError, this).
Proof.
  intros H. unfold setFromArray. by rewrite typed_array_set_too_long.
Qed.

(** X2: [setFromArray] with an array that is not longer than the matrix
    returns [undefined], overwrites only the first [length a] entries and keeps the
    others; the number of entries never changes. *)
Theorem setFromArray_short_overwrites_prefix (this : Matrix4) (a : list num) :
  (length a ≤ length (elements this))%nat →
  ∃ this', setFromArray this a = (Normal undefined, this') ∧
           length (elements this') = length (elements this) ∧
           take (length a) (elements this') = a ∧
           drop (length a) (elements this') = drop (length a) (elements this).
Proof.
  intros H. unfold setFromArray, typed_array_set. case_decide; [|lia].
  eexists. split; [done|]. simpl.
  split; [rewrite length_app, length_drop; lia|].
  split; [by rewrite take_app_length|by rewrite drop_app_length].
Qed.

Lemma track_object_too_long (l : loc) (o : Object3D) (w : World) :
  heap w !! l = Some o →
  (length (elements (matrix o)) < length (transformationMatrix w))%nat →
  track_object (Some l) w = (Throw RangeError, w).
Proof.
  intros Hl Hlen. simpl. unfold bind, gets, object_matrix_setFromArray.
  rewrite Hl. unfold setFromArray. by rewrite typed_array_set_too_long.
Qed.

(** X3: When the tracker's matrix does not fit the matrix of the object
    found in [patternMarkers], [onGetMarker] throws a [RangeError] before anything is
    written: the object is not shown, and [barcodeMarkers] is not looked
    at. *)
Theorem onGetMarker_oversized_matrix_throws (mk : Marker) (l : loc) (o : Object3D)
    (w : World) :
  patternMarkers w !! idPatt mk = Some l →
  heap w !! l = Some o →
  (length (elements (matrix o)) < length (transformationMatrix w))%nat →
  onGetMarker mk w = (Throw RangeError, w).
Proof.
  intros Hk Hl Hlen. unfold onGetMarker, bind at 1, gets at 1. rewrite Hk.
  unfold bind at 1. by rewrite (track_object_too_long l o w).
Qed.

Lemma only_RangeError_bind {A B} (m : M A) (k : A → M B) :
  only_RangeError m → (∀ a, only_RangeError (k a)) → only_RangeError (bind m k).
Proof.
  intros Hm Hk w e w'. unfold bind. destruct (m w) as [[a|e0] w0] eqn:E.
  - apply Hk.
  - intros [= <- <-]. by apply (Hm w e0 w0).
Qed.

Lemma only_RangeError_for_each {A} (xs : list A) (body : A → M unit) :
  (∀ x, only_RangeError (body x)) → only_RangeError (for_each xs body).
Proof.
  intros Hb. induction xs as [|x xs IH]; simpl.
  - by intros w e w'.
  - by apply only_RangeError_bind.
Qed.

Lemma only_RangeError_object_matrix_setFromArray (l : loc) (m : list num) :
  only_RangeError (object_matrix_setFromArray l m).
Proof.
  intros w e w'. unfold object_matrix_setFromArray, setFromArray.
  destruct (heap w !! l) as [o|]; [|done].
  destruct (typed_array_set (elements (matrix o)) m); [done|]. by intros [= <- _].
Qed.

Lemma only_RangeError_track_object (obj : option loc) : only_RangeError (track_object obj).
Proof.
  destruct obj as [l|]; simpl; [|by intros w e w'].
  apply only_RangeError_bind; [by intros w e w'|]. intros m.
  apply only_RangeError_bind; [apply only_RangeError_object_matrix_setFromArray|].
  by intros _ w e w'.
Qed.

Lemma only_RangeError_onGetMarker (mk : Marker) : only_RangeError (onGetMarker mk).
Proof.
  unfold onGetMarker.
  apply only_RangeError_bind; [by intros w e w'|]. intros obj.
  apply only_RangeError_bind; [apply only_RangeError_track_object|]. intros _.
  apply only_RangeError_bind; [by intros w e w'|]. intros obj'.
  apply only_RangeError_track_object.
Qed.

Lemma only_RangeError_artoolkit_process (frame : Frame) :
  only_RangeError (artoolkit_process frame).
Proof.
  unfold artoolkit_process. apply only_RangeError_bind; [|by intros _ w e w'].
  apply only_RangeError_for_each. intros r.
  apply only_RangeError_bind; [by intros w e w'|]. intros _.
  apply only_RangeError_onGetMarker.
Qed.

Lemma keeps_projection_bind {A B} (m : M A) (k : A → M B) :
  keeps_projection m → (∀ a, keeps_projection (k a)) → keeps_projection (bind m k).
Proof.
  intros Hm Hk w. unfold bind. specialize (Hm w).
  destruct (m w) as [[a|e] w0]; simpl in *; [|done]. by rewrite Hk.
Qed.

Lemma keeps_projection_for_each {A} (xs : list A) (body : A → M unit) :
  (∀ x, keeps_projection (body x)) → keeps_projection (for_each xs body).
Proof.
  intros Hb. induction xs as [|x xs IH]; simpl; [done|].
  by apply keeps_projection_bind.
Qed.

Lemma keeps_projection_object_matrix_setFromArray (l : loc) (m : list num) :
  keeps_projection (object_matrix_setFromArray l m).
Proof.
  intros w. unfold object_matrix_setFromArray.
  destruct (heap w !! l) as [o|]; [|done].
  by destruct (setFromArray (matrix o) m) as [[v|e] mat].
Qed.

Lemma keeps_projection_track_object (obj : option loc) :
  keeps_projection (track_object obj).
Proof.
  destruct obj as [l|]; simpl; [|done].
  apply keeps_projection_bind; [done|]. intros m.
  apply keeps_projection_bind; [apply keeps_projection_object_matrix_setFromArray|].
  done.
Qed.

Lemma keeps_projection_onGetMarker (mk : Marker) : keeps_projection (onGetMarker mk).
Proof.
  unfold onGetMarker.
  apply keeps_projection_bind; [done|]. intros obj.
  apply keeps_projection_bind; [apply keeps_projection_track_object|]. intros _.
  apply keeps_projection_bind; [done|]. intros obj'.
  apply keeps_projection_track_object.
Qed.

Lemma keeps_projection_artoolkit_process (frame : Frame) :
  keeps_projection (artoolkit_process frame).
Proof.
  unfold artoolkit_process. apply keeps_projection_bind; [|done].
  apply keeps_projection_for_each. intros r.
  apply keeps_projection_bind; [done|]. intros _.
  apply keeps_projection_onGetMarker.
Qed.

(** X4: Whatever the tracker hands over, [process] never fails on the tables:
    the only exception it can throw is the [RangeError] of an oversized
    matrix, and when it throws the camera's projection matrix is the one
    from before the call. *)
Theorem process_throws_only_RangeError (frame : Frame) (w w' : World) (e : exn) :
  process frame w = (Throw e, w') →
  e = RangeError ∧ projectionMatrix w' = projectionMatrix w.
Proof.
  unfold process, bind at 1. rewrite hide_markers_run. unfold bind at 1.
  pose proof (only_RangeError_artoolkit_process frame (after_hide w)) as Hexn.
  pose proof (keeps_projection_artoolkit_process frame (after_hide w)) as Hproj.
  destruct (artoolkit_process frame (after_hide w)) as [[[]|e1] w1]; simpl in Hproj.
  - unfold bind, gets, camera_projectionMatrix_setFromArray, setFromArray, ret.
    destruct (typed_array_set (elements (projectionMatrix w1)) (cameraMatrix w1));
      [done|]. intros [= <- <-]. by rewrite Hproj.
  - intros [= <- <-]. split; [by apply (Hexn e1 w1)|by rewrite Hproj].
Qed.

(** ** Further results: poses and visibility across reports and frames *)

Lemma after_reports_app (rs1 rs2 : list (Marker * list num)) (w : World) :
  after_reports (rs1 ++ rs2) w = after_reports rs2 (after_reports rs1 w).
Proof. unfold after_reports. by rewrite foldl_app. Qed.

Lemma after_reports_cons (r : Marker * list num) (rs : list (Marker * list num))
    (w : World) :
  after_reports (r :: rs) w
  = after_reports rs (after_report r.1 (set_transformationMatrix r.2 w)).
Proof. done. Qed.

Lemma reported_after_reports (rs : list (Marker * list num)) (w : World)
    (mk : Marker) (l : loc) :
  reported (after_reports rs w) mk l ↔ reported w mk l.
Proof.
  unfold reported.
  by destruct (after_reports_tables rs w) as (-> & -> & _).
Qed.

Lemma after_reports_not_reported (rs : list (Marker * list num)) (w : World) (l : loc) :
  (∀ r, r ∈ rs → ¬ reported w r.1 l) →
  heap (after_reports rs w) !! l = heap w !! l.
Proof.
  revert w. induction rs as [|r rs IH]; intros w Hrs; [done|].
  rewrite after_reports_cons, IH.
  - rewrite after_report_not_reported; [done|].
    exact (Hrs r (list_elem_of_here _ _)).
  - intros r' Hr'. exact (Hrs r' (list_elem_of_further _ _ _ Hr')).
Qed.

Lemma after_reports_live (rs : list (Marker * list num)) (w : World)
    (l : loc) (o : Object3D) :
  heap w !! l = Some o →
  ∃ o', heap (after_reports rs w) !! l = Some o' ∧
        matrixAutoUpdate o' = matrixAutoUpdate o.
Proof.
  revert w o. induction rs as [|r rs IH]; intros w o Hl; [eauto|].
  rewrite after_reports_cons.
  assert (∃ o1, heap (after_report r.1 (set_transformationMatrix r.2 w)) !! l = Some o1 ∧
                matrixAutoUpdate o1 = matrixAutoUpdate o) as (o1 & Ho1 & Ha1).
  { unfold after_report. simpl. rewrite !lookup_track_heap, Hl.
    repeat case_decide; simpl; eauto. }
  destruct (IH _ o1 Ho1) as (o' & Ho' & Ha'). exists o'. split; [done|congruence].
Qed.

Lemma process_run_heap (frame : Frame) (w : World) :
  object_matrices16 (heap w) →
  length (elements (projectionMatrix w)) = 16%nat →
  frame16 frame →
  process frame w
  = (Normal tt,
     set_projectionMatrix (mkMatrix4 (cameraAfter frame))
       (set_cameraMatrix (cameraAfter frame)
          (after_reports (reports frame) (after_hide w)))) ∧
  heap (process frame w).2 = heap (after_reports (reports frame) (after_hide w)) ∧
  patternMarkers (process frame w).2 = patternMarkers w ∧
  barcodeMarkers (process frame w).2 = barcodeMarkers w.
Proof.
  intros H16 Hp [Hrs Hc]. rewrite process_run by done. simpl.
  destruct (after_reports_tables (reports frame) (after_hide w)) as (-> & -> & _).
  done.
Qed.

(** X5: A registered object that no report of the frame names ends the frame
    hidden, with the matrix it had before: the last pose is kept. *)
Theorem process_unreported_keeps_pose (frame : Frame) (w : World) (l : loc) :
  object_matrices16 (heap w) →
  length (elements (projectionMatrix w)) = 16%nat →
  frame16 frame →
  registered w l →
  (∀ r, r ∈ reports frame → ¬ reported w r.1 l) →
  ∃ w', process frame w = (Normal tt, w') ∧
        heap w' !! l = set_visible false <$> heap w !! l.
Proof.
  intros H16 Hp Hf Hreg Hno.
  destruct (process_run_heap frame w H16 Hp Hf) as (Hrun & Hheap & _).
  eexists. split; [exact Hrun|]. rewrite Hrun in Hheap. simpl in *.
  rewrite after_reports_not_reported by done.
  by apply after_hide_registered.
Qed.

(** X6: When several reports of one frame name the same object, the last one
    decides its matrix; the object is shown and keeps its
    [matrixAutoUpdate]. *)
Theorem process_last_report_wins (frame : Frame) (w : World) (l : loc) (o : Object3D)
    (rs1 rs2 : list (Marker * list num)) (r : Marker * list num) :
  object_matrices16 (heap w) →
  length (elements (projectionMatrix w)) = 16%nat →
  frame16 frame →
  reports frame = rs1 ++ r :: rs2 →
  reported w r.1 l →
  (∀ r', r' ∈ rs2 → ¬ reported w r'.1 l) →
  heap w !! l = Some o →
  ∃ w' o', process frame w = (Normal tt, w') ∧
           heap w' !! l = Some o' ∧
           elements (matrix o') = r.2 ∧
           visible o' = true ∧
           matrixAutoUpdate o' = matrixAutoUpdate o.
Proof.
  intros H16 Hp Hf Hsplit Hrep Hno Hl.
  destruct (process_run_heap frame w H16 Hp Hf) as (Hrun & Hheap & _).
  rewrite Hrun in Hheap. simpl in Hheap.
  assert (∃ o0, heap (after_hide w) !! l = Some o0 ∧
                matrixAutoUpdate o0 = matrixAutoUpdate o) as (o0 & Ho0 & Ha0).
  { rewrite lookup_after_hide, Hl. case_decide; simpl; eauto. }
  destruct (after_reports_live rs1 (after_hide w) l o0 Ho0) as (o1 & Ho1 & Ha1).
  destruct (after_report_reported r.1
              (set_transformationMatrix r.2 (after_reports rs1 (after_hide w))) l o1)
    as (o2 & Ho2 & Hel & Hvis & Ha2); [|exact Ho1|].
  { apply (reported_after_reports rs1 (after_hide w)). exact Hrep. }
  eexists _, o2. split; [exact Hrun|]. simpl.
  rewrite Hsplit, after_reports_app, after_reports_cons.
  rewrite after_reports_not_reported.
  - split; [exact Ho2|]. split; [exact Hel|]. split; [exact Hvis|congruence].
  - intros r' Hr'. specialize (Hno r' Hr'). intros H. apply Hno.
    apply (reported_after_reports rs1 (after_hide w)). exact H.
Qed.

Lemma process_run_visible (frame : Frame) (w : World) (l : loc) (o : Object3D) :
  object_matrices16 (heap w) →
  length (elements (projectionMatrix w)) = 16%nat →
  frame16 frame →
  registered w l →
  heap (process frame w).2 !! l = Some o →
  (visible o = true ↔ ∃ r, r ∈ reports frame ∧ reported w r.1 l).
Proof.
  intros H16 Hp Hf Hreg.
  destruct (process_run_heap frame w H16 Hp Hf) as (_ & -> & _). intros Hl.
  apply after_reports_visible in Hl as (o1 & Ho1 & Hv). rewrite Hv.
  rewrite after_hide_registered in Ho1 by done.
  destruct (heap w !! l) as [o0|]; [|done]. injection Ho1 as <-. simpl.
  split; [intros [?|H]; [done|exact H]|intros H; by right].
Qed.

(** X7: Visibility does not carry over from one frame to the next: after two
    calls of [process], what is shown depends on the reports of the second
    frame only. *)
Theorem process_twice_shows_last_frame (frame1 frame2 : Frame) (w : World) :
  object_matrices16 (heap w) →
  length (elements (projectionMatrix w)) = 16%nat →
  frame16 frame1 →
  frame16 frame2 →
  ∃ w1 w2, process frame1 w = (Normal tt, w1) ∧
           process frame2 w1 = (Normal tt, w2) ∧
           ∀ l o, registered w l → heap w2 !! l = Some o →
             (visible o = true ↔ ∃ r, r ∈ reports frame2 ∧ reported w r.1 l).
Proof.
  intros H16 Hp Hf1 Hf2.
  destruct (process_run_heap frame1 w H16 Hp Hf1) as (Hrun1 & _ & Hpat & Hbar).
  destruct (process_invariants frame1 w H16 Hp (proj1 Hf1) (proj2 Hf1)) as [H16' Hp'].
  destruct (process_run_heap frame2 _ H16' Hp' Hf2) as (Hrun2 & _).
  eexists _, _. split; [exact Hrun1|].
  rewrite Hrun1 in Hrun2, H16', Hp', Hpat, Hbar. simpl in Hrun2, H16', Hp', Hpat, Hbar.
  split; [exact Hrun2|]. intros l o Hreg Hl.
  assert (∀ mk, reported (set_projectionMatrix (mkMatrix4 (cameraAfter frame1))
                  (set_cameraMatrix (cameraAfter frame1)
                     (after_reports (reports frame1) (after_hide w)))) mk l
                ↔ reported w mk l) as Hrep.
  { intros mk. unfold reported. simpl. by rewrite Hpat, Hbar. }
  setoid_rewrite <- Hrep.
  apply process_run_visible; try done.
  - unfold registered. simpl. by rewrite Hpat, Hbar.
  - by rewrite Hrun2.
Qed.

(** X8: Reporting the same marker twice in a row, with the same matrix, leaves
    the world as one report does. *)
Theorem onGetMarker_twice_same_report (mk : Marker) (w : World) :
  object_matrices16 (heap w) →
  length (transformationMatrix w) = 16%nat →
  ∃ w1, onGetMarker mk w = (Normal tt, w1) ∧ onGetMarker mk w1 = (Normal tt, w1).
Proof.
  intros H16 Hm. exists (after_report mk w).
  split; [by apply onGetMarker_run|].
  rewrite onGetMarker_run; [|by apply after_report_matrices16|done].
  f_equal. unfold after_report, set_heap. simpl. f_equal.
  apply map_eq. intros j. rewrite !lookup_track_heap.
  destruct (heap w !! j) as [o|]; repeat case_decide; done.
Qed.

(** ** Further results: the order of the [for ... in] loops *)

Section hide_order.
Variable table : World → gmap Z loc.
Hypothesis table_set_heap : ∀ h w, table (set_heap h w) = table w.

Lemma for_each_hide_present (t : gmap Z loc) (ks : list Z) (w : World) :
  table w = t →
  (∀ k, k ∈ ks → is_Some (t !! k)) →
  for_each ks (hide_entry table) w
  = (Normal tt, set_heap (hide_locs (omap (λ k, t !! k) ks) (heap w)) w).
Proof.
  revert w. induction ks as [|k ks IH]; intros w Ht Hin.
  - simpl. unfold ret. by rewrite set_heap_id.
  - destruct (Hin k (list_elem_of_here _ _)) as [l Hl].
    simpl. unfold bind at 1, hide_entry at 1, bind at 1, gets at 1.
    rewrite Ht, Hl. unfold write_visible, modify. rewrite IH.
    + by rewrite set_heap_set_heap.
    + by rewrite table_set_heap.
    + intros k' Hk'. by apply Hin, list_elem_of_further.
Qed.

Lemma hide_present_objects (t : gmap Z loc) (ks : list Z) (l : loc) :
  (∀ k, k ∈ ks ↔ is_Some (t !! k)) →
  l ∈ omap (λ k, t !! k) ks ↔ l ∈ table_objects t.
Proof.
  intros Hks. rewrite list_elem_of_omap, elem_of_table_objects. split.
  - intros (k & _ & Hk). eauto.
  - intros [k Hk]. exists k. split; [|done]. apply Hks. eauto.
Qed.
End hide_order.

(** X9: The result of the two loops that open [process] does not depend on the
    order in which [for ... in] visits the keys, nor on a key being visited
    more than once. *)
Theorem hide_loops_order_independent (ks1 ks2 : list Z) (w : World) :
  (∀ k, k ∈ ks1 ↔ is_Some (patternMarkers w !! k)) →
  (∀ k, k ∈ ks2 ↔ is_Some (barcodeMarkers w !! k)) →
  (do for_each ks1 (hide_entry patternMarkers) then
   for_each ks2 (hide_entry barcodeMarkers)) w
  = hide_markers w.
Proof.
  intros H1 H2. rewrite hide_markers_run. unfold bind.
  rewrite (for_each_hide_present patternMarkers (λ _ _, eq_refl)
             (patternMarkers w) ks1 w eq_refl) by (intros k; apply H1).
  erewrite (for_each_hide_present barcodeMarkers (λ _ _, eq_refl)
              (barcodeMarkers w) ks2); [|reflexivity|intros k; apply H2].
  unfold after_hide, set_heap. simpl. do 2 f_equal.
  apply map_eq. intros l. rewrite !lookup_hide_locs.
  pose proof (hide_present_objects (patternMarkers w) ks1 l H1).
  pose proof (hide_present_objects (barcodeMarkers w) ks2 l H2).
  repeat case_decide; try done; tauto.
Qed.

(** ** Further results: what every sequence of calls keeps *)

Lemma frame_preserved_unaliased (w w' : World) :
  frame_preserved w w' → unaliased w → unaliased w'.
Proof. intros (Hp & Hb & _). unfold unaliased. by rewrite Hp, Hb. Qed.

Lemma frame_preserved_markers_fixed (w w' : World) :
  frame_preserved w w' → markers_fixed w → markers_fixed w'.
Proof.
  intros Hf Hfix l o' Hreg Hl.
  apply (frame_preserved_registered w w' l Hf) in Hreg.
  destruct Hf as (_ & _ & Hh). specialize (Hh l). rewrite Hl in Hh.
  destruct (heap w !! l) as [o|] eqn:E; [|done]. destruct Hh as [-> _]. eauto.
Qed.

Lemma createThreeMarker_closed (markerUID : Z) (w : World) :
  tables_closed w → tables_closed (createThreeMarker markerUID w).2.
Proof.
  intros Hclosed. rewrite createThreeMarker_run. simpl.
  destruct (insert_tables_closed (fresh (dom (heap w)))
              (set_matrixAutoUpdate false Object3D_new) w Hclosed) as [Hp Hb].
  split; [|done]. intros k l. simpl in *.
  destruct (decide (markerUID = k)) as [<-|?].
  - rewrite lookup_insert_eq. intros [= <-]. by rewrite lookup_insert_eq.
  - rewrite lookup_insert_ne by done. apply Hp.
Qed.

Lemma createThreeBarcodeMarker_closed (markerUID : Z) (w : World) :
  tables_closed w → tables_closed (createThreeBarcodeMarker markerUID w).2.
Proof.
  intros Hclosed. rewrite createThreeBarcodeMarker_run. simpl.
  destruct (insert_tables_closed (fresh (dom (heap w)))
              (set_matrixAutoUpdate false Object3D_new) w Hclosed) as [Hp Hb].
  split; [done|]. intros k l. simpl in *.
  destruct (decide (markerUID = k)) as [<-|?].
  - rewrite lookup_insert_eq. intros [= <-]. by rewrite lookup_insert_eq.
  - rewrite lookup_insert_ne by done. apply Hb.
Qed.

Lemma createThreeMarker_unaliased (markerUID : Z) (w : World) :
  tables_closed w → unaliased w → unaliased (createThreeMarker markerUID w).2.
Proof.
  intros Hclosed (Hpp & Hbb & Hpb). rewrite createThreeMarker_run. simpl.
  pose proof (λ k, proj1 (fresh_not_in_tables w k Hclosed)) as Hfp.
  pose proof (λ k, proj2 (fresh_not_in_tables w k Hclosed)) as Hfb.
  split; [|split]; simpl.
  - intros k1 k2 l.
    destruct (decide (markerUID = k1)) as [<-|?], (decide (markerUID = k2)) as [<-|?];
      rewrite ?lookup_insert_eq, ?lookup_insert_ne by done; try done.
    + intros [= <-] H. by apply Hfp in H.
    + intros H [= <-]. by apply Hfp in H.
    + apply Hpp.
  - apply Hbb.
  - intros k1 k2 l. destruct (decide (markerUID = k1)) as [<-|?];
      rewrite ?lookup_insert_eq, ?lookup_insert_ne by done.
    + intros [= <-]. apply Hfb.
    + apply Hpb.
Qed.

Lemma createThreeBarcodeMarker_unaliased (markerUID : Z) (w : World) :
  tables_closed w → unaliased w → unaliased (createThreeBarcodeMarker markerUID w).2.
Proof.
  intros Hclosed (Hpp & Hbb & Hpb). rewrite createThreeBarcodeMarker_run. simpl.
  pose proof (λ k, proj1 (fresh_not_in_tables w k Hclosed)) as Hfp.
  pose proof (λ k, proj2 (fresh_not_in_tables w k Hclosed)) as Hfb.
  split; [|split]; simpl.
  - apply Hpp.
  - intros k1 k2 l.
    destruct (decide (markerUID = k1)) as [<-|?], (decide (markerUID = k2)) as [<-|?];
      rewrite ?lookup_insert_eq, ?lookup_insert_ne by done; try done.
    + intros [= <-] H. by apply Hfb in H.
    + intros H [= <-]. by apply Hfb in H.
    + apply Hbb.
  - intros k1 k2 l Hk1. destruct (decide (markerUID = k2)) as [<-|?];
      rewrite ?lookup_insert_eq, ?lookup_insert_ne by done.
    + intros [= <-]. by apply Hfp in Hk1.
    + by apply (Hpb k1).
Qed.

Lemma createThreeMarker_registered (markerUID : Z) (w : World) (l : loc) :
  registered (createThreeMarker markerUID w).2 l →
  l = fresh (dom (heap w)) ∨ registered w l.
Proof.
  rewrite createThreeMarker_run. simpl. intros [[k Hk]|[k Hk]]; simpl in Hk.
  - destruct (decide (markerUID = k)) as [<-|?].
    + rewrite lookup_insert_eq in Hk. left. congruence.
    + rewrite lookup_insert_ne in Hk by done. right. left. eauto.
  - right. right. eauto.
Qed.

Lemma createThreeBarcodeMarker_registered (markerUID : Z) (w : World) (l : loc) :
  registered (createThreeBarcodeMarker markerUID w).2 l →
  l = fresh (dom (heap w)) ∨ registered w l.
Proof.
  rewrite createThreeBarcodeMarker_run. simpl. intros [[k Hk]|[k Hk]]; simpl in Hk.
  - right. left. eauto.
  - destruct (decide (markerUID = k)) as [<-|?].
    + rewrite lookup_insert_eq in Hk. left. congruence.
    + rewrite lookup_insert_ne in Hk by done. right. right. eauto.
Qed.

Lemma createThreeMarker_markers_fixed (markerUID : Z) (w : World) :
  markers_fixed w → markers_fixed (createThreeMarker markerUID w).2.
Proof.
  intros Hfix l o Hreg. apply createThreeMarker_registered in Hreg.
  rewrite createThreeMarker_run. simpl.
  destruct (decide (fresh (dom (heap w)) = l)) as [<-|Hne].
  - rewrite lookup_insert_eq. by intros [= <-].
  - rewrite lookup_insert_ne by done. destruct Hreg as [->|Hreg]; [done|]. eauto.
Qed.

Lemma createThreeBarcodeMarker_markers_fixed (markerUID : Z) (w : World) :
  markers_fixed w → markers_fixed (createThreeBarcodeMarker markerUID w).2.
Proof.
  intros Hfix l o Hreg. apply createThreeBarcodeMarker_registered in Hreg.
  rewrite createThreeBarcodeMarker_run. simpl.
  destruct (decide (fresh (dom (heap w)) = l)) as [<-|Hne].
  - rewrite lookup_insert_eq. by intros [= <-].
  - rewrite lookup_insert_ne by done. destruct Hreg as [->|Hreg]; [done|]. eauto.
Qed.

Lemma initial_api_invariant (projection transformation cam : list num) :
  length projection = 16%nat →
  api_invariant (initial_world projection transformation cam).
Proof.
  intros Hp. destruct (initial_world_invariants projection transformation cam) as [Hc H16].
  split; [done|]. split; [done|]. split; [done|]. split.
  - repeat split; intros k1 k2 l H; simpl in H; by rewrite lookup_empty in H.
  - intros l o _ H. simpl in H. by rewrite lookup_empty in H.
Qed.

Lemma api_step_invariant (c : ApiCall) (w : World) :
  length (elements (matrix Object3D_new)) = 16%nat →
  well_sized c → api_invariant w → api_invariant (api_step c w).
Proof.
  intros Hnew Hc (Hclosed & H16 & Hp & Hun & Hfix).
  destruct c as [uid|uid|frame]; unfold api_step.
  - destruct (createThreeMarker_invariants uid w Hnew Hclosed H16) as [Hc' H16'].
    split; [done|]. split; [done|].
    split; [by rewrite createThreeMarker_run|].
    split; [by apply createThreeMarker_unaliased|by apply createThreeMarker_markers_fixed].
  - destruct (createThreeBarcodeMarker_invariants uid w Hnew Hclosed H16) as [Hc' H16'].
    split; [done|]. split; [done|].
    split; [by rewrite createThreeBarcodeMarker_run|].
    split; [by apply createThreeBarcodeMarker_unaliased
           |by apply createThreeBarcodeMarker_markers_fixed].
  - destruct Hc as [Hrs Hcam].
    destruct (process_invariants frame w H16 Hp Hrs Hcam) as [H16' Hp'].
    pose proof (process_preserves frame w) as Hf.
    split; [by apply (frame_preserved_closed w)|]. split; [done|]. split; [done|].
    split; [by apply (frame_preserved_unaliased w)
           |by apply (frame_preserved_markers_fixed w)].
Qed.

Lemma run_api_invariant (cs : list ApiCall) (w : World) :
  length (elements (matrix Object3D_new)) = 16%nat →
  Forall well_sized cs → api_invariant w → api_invariant (run_api cs w).
Proof.
  intros Hnew Hcs. revert w.
  induction Hcs as [|c cs Hc Hcs IH]; intros w Hinv; [done|].
  apply IH. by apply api_step_invariant.
Qed.

(** X10: Starting from empty tables, whatever markers are registered and
    whatever 4x4 frames are processed: no table entry dangles, all matrices
    keep 16 entries, no object is registered twice, and every registered
    object still has [matrixAutoUpdate = false]. *)
Theorem api_run_keeps_invariants (cs : list ApiCall)
    (projection transformation cam : list num) :
  length (elements (matrix Object3D_new)) = 16%nat →
  length projection = 16%nat →
  Forall well_sized cs →
  api_invariant (run_api cs (initial_world projection transformation cam)).
Proof.
  intros Hnew Hp Hcs. apply run_api_invariant; [done|done|].
  by apply initial_api_invariant.
Qed.

(** X11: On every world reached from empty tables by registering markers
    and processing 4x4 frames, [process] returns normally when the tracker
    hands over 4x4 matrices: it does not throw. *)
Theorem process_returns_on_api_worlds (cs : list ApiCall) (frame : Frame)
    (projection transformation cam : list num) :
  length (elements (matrix Object3D_new)) = 16%nat →
  length projection = 16%nat →
  Forall well_sized cs →
  frame16 frame →
  ∃ w', process frame (run_api cs (initial_world projection transformation cam))
        = (Normal tt, w').
Proof.
  intros Hnew Hp Hcs [Hrs Hc].
  destruct (run_api_invariant cs (initial_world projection transformation cam) Hnew Hcs)
    as (_ & H16 & Hp' & _); [by apply initial_api_invariant|].
  eexists. by apply process_run.
Qed.

Lemma reported_by_id (w : World) (mk : Marker) (l : loc) :
  unaliased w →
  (∀ k, patternMarkers w !! k = Some l → (reported w mk l ↔ idPatt mk = k)) ∧
  (∀ k, barcodeMarkers w !! k = Some l → (reported w mk l ↔ idMatrix mk = k)).
Proof.
  intros (Hpp & Hbb & Hpb). unfold reported. split; intros k Hk; split.
  - intros [H|H]; [by apply (Hpp _ _ l)|]. by destruct (Hpb k (idMatrix mk) l).
  - intros ->. by left.
  - intros [H|H]; [|by apply (Hbb _ _ l)]. by destruct (Hpb (idPatt mk) k l).
  - intros ->. by right.
Qed.

(** X12: In a world that satisfies [api_invariant], the object registered
    for a pattern id is shown after [process] exactly when some report of the
    frame carries that id in [idPatt], and the object registered for a
    barcode id exactly when some report carries it in [idMatrix]. *)
Theorem process_shows_marker_by_id (frame : Frame) (w : World) (k : Z) (l : loc)
    (o : Object3D) :
  api_invariant w →
  frame16 frame →
  heap (process frame w).2 !! l = Some o →
  (patternMarkers w !! k = Some l →
   (visible o = true ↔ ∃ r, r ∈ reports frame ∧ idPatt r.1 = k)) ∧
  (barcodeMarkers w !! k = Some l →
   (visible o = true ↔ ∃ r, r ∈ reports frame ∧ idMatrix r.1 = k)).
Proof.
  intros (Hclosed & H16 & Hp & Hun & Hfix) Hf Hl. split; intros Hk.
  - rewrite (process_run_visible frame w l o H16 Hp Hf); [|left; eauto|done].
    split; intros (r & Hr & H); exists r; (split; [done|]);
      by apply (proj1 (reported_by_id w r.1 l Hun) k Hk).
  - rewrite (process_run_visible frame w l o H16 Hp Hf); [|right; eauto|done].
    split; intros (r & Hr & H); exists r; (split; [done|]);
      by apply (proj2 (reported_by_id w r.1 l Hun) k Hk).
Qed.

(** ** Further results: [createThreeScene] *)

Lemma createThreeScene_run (w : World) :
  let N := Object3D_new in
  let l1 := fresh (dom (heap w)) in
  let h1 := <[l1 := N]> (heap w) in
  let l2 := fresh (dom h1) in
  let h2 := <[l2 := N]> h1 in
  let l3 := fresh (dom h2) in
  let h3 := <[l3 := N]> h2 in
  let l4 := fresh (dom h3) in
  let h4 := <[l4 := N]> h3 in
  let l5 := fresh (dom h4) in
  createThreeScene w
  = (Normal (mkSceneParts (mkThreeARScene l4 l3 l5 l2)
               (mkTexture LinearFilter false (needsUpdate Texture_new))
               l1 (2, 2)
               (mkMaterial videoTex_ref DoubleSide false false)
               [-1; 1; -1; 1; -1; 1] [45; 1; 1; 1000]
               (Object3D_add l4 l5 (Object3D_add l3 l2 (Object3D_add l3 l1 ∅)))),
     set_heap (<[l5 := set_matrixAutoUpdate false N]> h4)
       (set_projectionMatrix (mkMatrix4 PerspectiveCamera_projection) w)).
Proof.
  simpl. unfold createThreeScene, bind, new_Object3D, modify, ret,
    set_heap, set_projectionMatrix. simpl.
  do 2 f_equal. apply alter_insert_eq.
Qed.

Lemma fresh_chain (h : gmap loc Object3D) (N : Object3D) :
  let l1 := fresh (dom h) in
  let h1 := <[l1 := N]> h in
  let l2 := fresh (dom h1) in
  let h2 := <[l2 := N]> h1 in
  let l3 := fresh (dom h2) in
  let h3 := <[l3 := N]> h2 in
  let l4 := fresh (dom h3) in
  let h4 := <[l4 := N]> h3 in
  let l5 := fresh (dom h4) in
  (l1 ≠ l2 ∧ l1 ≠ l3 ∧ l1 ≠ l4 ∧ l1 ≠ l5 ∧ l2 ≠ l3 ∧ l2 ≠ l4 ∧ l2 ≠ l5 ∧
   l3 ≠ l4 ∧ l3 ≠ l5 ∧ l4 ≠ l5) ∧
  (h !! l1 = None ∧ h !! l2 = None ∧ h !! l3 = None ∧ h !! l4 = None ∧ h !! l5 = None).
Proof.
  intros l1 h1 l2 h2 l3 h3 l4 h4 l5.
  pose proof (fresh_not_allocated h) as F1. fold l1 in F1.
  pose proof (fresh_not_allocated h1) as F2. fold l2 in F2.
  pose proof (fresh_not_allocated h2) as F3. fold l3 in F3.
  pose proof (fresh_not_allocated h3) as F4. fold l4 in F4.
  pose proof (fresh_not_allocated h4) as F5. fold l5 in F5.
  unfold h4 in F5. unfold h3 in F4, F5. unfold h2 in F3, F4, F5.
  unfold h1 in F2, F3, F4, F5.
  rewrite !lookup_insert_None in F2. rewrite !lookup_insert_None in F3.
  rewrite !lookup_insert_None in F4. rewrite !lookup_insert_None in F5. tauto.
Qed.

(** X13: [createThreeScene] allocates five objects that did not exist before and
    are pairwise different: the video plane, the two cameras and the two
    scenes.  Every older object and both marker tables stay as they were;
    only the scene camera gets [matrixAutoUpdate = false]; the video scene
    holds the plane and the video camera, the 3D scene holds the camera. *)
Theorem createThreeScene_builds_fresh_scene (w : World) :
  ∃ parts w', createThreeScene w = (Normal parts, w') ∧
    NoDup (scene_objects parts) ∧
    (∀ l, l ∈ scene_objects parts → heap w !! l = None) ∧
    (∀ l, l ∉ scene_objects parts → heap w' !! l = heap w !! l) ∧
    (∀ l, l ∈ scene_objects parts →
       heap w' !! l = Some (if decide (l = camera (arScene parts))
                            then set_matrixAutoUpdate false Object3D_new
                            else Object3D_new)) ∧
    patternMarkers w' = patternMarkers w ∧
    barcodeMarkers w' = barcodeMarkers w ∧
    children parts !! videoScene (arScene parts)
      = Some [plane parts; videoCamera (arScene parts)] ∧
    children parts !! scene (arScene parts) = Some [camera (arScene parts)] ∧
    projectionMatrix w' = mkMatrix4 PerspectiveCamera_projection ∧
    videoTex parts = mkTexture LinearFilter false (needsUpdate Texture_new) ∧
    planeMaterial parts = mkMaterial videoTex_ref DoubleSide false false.
Proof.
  pose proof (createThreeScene_run w) as Hrun. simpl in Hrun.
  pose proof (fresh_chain (heap w) Object3D_new) as Hchain. simpl in Hchain.
  eexists _, _. split; [exact Hrun|]. clear Hrun. unfold scene_objects. simpl.
  destruct Hchain as ((N12 & N13 & N14 & N15 & N23 & N24 & N25 & N34 & N35 & N45)
                      & F1 & F2 & F3 & F4 & F5).
  split.
  { rewrite !NoDup_cons, !elem_of_cons, !elem_of_nil.
    repeat split; try apply NoDup_nil_2; intuition congruence. }
  split.
  { intros l. rewrite !elem_of_cons, elem_of_nil. intuition congruence. }
  split.
  { intros l. rewrite !elem_of_cons, elem_of_nil. intros Hl.
    rewrite !lookup_insert_ne by intuition congruence. done. }
  split.
  { intros l. rewrite !elem_of_cons, elem_of_nil.
    intros [->|[->|[->|[->|[->|[]]]]]]; case_decide; try congruence;
      rewrite ?lookup_insert_eq; try done;
      repeat (rewrite lookup_insert_ne by congruence; rewrite ?lookup_insert_eq);
      done. }
  split; [done|]. split; [done|].
  unfold Object3D_add. split.
  { rewrite lookup_insert_ne by congruence. rewrite lookup_insert_eq.
    rewrite lookup_insert_eq. by rewrite lookup_empty. }
  split; [|done].
  rewrite lookup_insert_eq. rewrite lookup_insert_ne by congruence.
  by rewrite lookup_insert_ne, lookup_empty by congruence.
Qed.

(** What [createThreeScene] means for the store and the tables. *)
Lemma createThreeScene_frame (w : World) :
  ∃ parts w', createThreeScene w = (Normal parts, w') ∧
    (∀ l, l ∈ scene_objects parts → heap w !! l = None) ∧
    (∀ l, l ∉ scene_objects parts → heap w' !! l = heap w !! l) ∧
    (∀ l, l ∈ scene_objects parts → is_Some (heap w' !! l)) ∧
    patternMarkers w' = patternMarkers w ∧
    barcodeMarkers w' = barcodeMarkers w.
Proof.
  pose proof (createThreeScene_run w) as Hrun. simpl in Hrun.
  pose proof (fresh_chain (heap w) Object3D_new) as Hchain. simpl in Hchain.
  eexists _, _. split; [exact Hrun|]. clear Hrun. unfold scene_objects. simpl.
  destruct Hchain as ((N12 & N13 & N14 & N15 & N23 & N24 & N25 & N34 & N35 & N45)
                      & F1 & F2 & F3 & F4 & F5).
  split.
  { intros l. rewrite !elem_of_cons, elem_of_nil. intuition congruence. }
  split.
  { intros l. rewrite !elem_of_cons, elem_of_nil. intros Hl.
    rewrite !lookup_insert_ne by intuition congruence. done. }
  split; [|done].
  intros l. rewrite !elem_of_cons, elem_of_nil.
  intros [->|[->|[->|[->|[->|[]]]]]];
    rewrite ?lookup_insert_eq; eauto;
    repeat (rewrite lookup_insert_ne by congruence; rewrite ?lookup_insert_eq);
    eauto.
Qed.

Lemma api_step_unregistered (c : ApiCall) (w : World) (l : loc) :
  tables_closed w → is_Some (heap w !! l) → ¬ registered w l →
  tables_closed (api_step c w) ∧
  heap (api_step c w) !! l = heap w !! l ∧
  ¬ registered (api_step c w) l.
Proof.
  intros Hclosed [o Hl] Hreg.
  assert (fresh (dom (heap w)) ≠ l) as Hfresh.
  { intros <-. by rewrite fresh_not_allocated in Hl. }
  destruct c as [uid|uid|frame]; unfold api_step.
  - split; [by apply createThreeMarker_closed|]. split.
    + rewrite createThreeMarker_run. simpl. by rewrite lookup_insert_ne.
    + intros [->|H]%createThreeMarker_registered; done.
  - split; [by apply createThreeBarcodeMarker_closed|]. split.
    + rewrite createThreeBarcodeMarker_run. simpl. by rewrite lookup_insert_ne.
    + intros [->|H]%createThreeBarcodeMarker_registered; done.
  - pose proof (process_preserves frame w) as Hf.
    split; [by apply (frame_preserved_closed w)|]. split.
    + by apply unregistered_object_kept; [apply process_preserves|].
    + by rewrite (frame_preserved_registered w).
Qed.

Lemma run_api_unregistered (cs : list ApiCall) (w : World) (l : loc) :
  tables_closed w → is_Some (heap w !! l) → ¬ registered w l →
  heap (run_api cs w) !! l = heap w !! l.
Proof.
  revert w. induction cs as [|c cs IH]; intros w Hclosed Hl Hreg; [done|].
  destruct (api_step_unregistered c w l Hclosed Hl Hreg) as (Hc' & Hl' & Hreg').
  change (run_api (c :: cs) w) with (run_api cs (api_step c w)).
  rewrite IH; [done|done| |done]. by rewrite Hl'.
Qed.

(** X14: The scenes, the cameras and the video plane are never marker
    objects: whatever markers are registered afterwards and whatever frames
    are processed, also frames that make [process] throw, the [matrix], the
    [visible] flag and the [matrixAutoUpdate] flag of each of the five
    objects stay as [createThreeScene] left them.  (The projection matrix of
    the scene camera is not among these fields: [process] rewrites it on
    every frame.) *)
Theorem scene_objects_never_tracked (cs : list ApiCall) (w : World) :
  tables_closed w →
  ∃ parts w', createThreeScene w = (Normal parts, w') ∧
    ∀ l, l ∈ scene_objects parts → heap (run_api cs w') !! l = heap w' !! l.
Proof.
  intros Hclosed.
  destruct (createThreeScene_frame w)
    as (parts & w' & Hrun & Hnew & Hold & Hlive & Hp & Hb).
  exists parts, w'. split; [done|]. intros l Hl.
  assert (tables_closed w') as Hclosed'.
  { destruct Hclosed as [Hcp Hcb]. split; intros k l' H.
    - rewrite Hp in H. destruct (Hcp k l' H) as [o Ho].
      destruct (decide (l' ∈ scene_objects parts)) as [Hin|Hout].
      + by apply Hlive.
      + rewrite (Hold l' Hout). eauto.
    - rewrite Hb in H. destruct (Hcb k l' H) as [o Ho].
      destruct (decide (l' ∈ scene_objects parts)) as [Hin|Hout].
      + by apply Hlive.
      + rewrite (Hold l' Hout). eauto. }
  apply run_api_unregistered; [done|by apply Hlive|].
  destruct Hclosed as [Hcp Hcb].
  intros [[k Hk]|[k Hk]].
  - rewrite Hp in Hk. destruct (Hcp k l Hk) as [o Ho].
    by rewrite (Hnew l Hl) in Ho.
  - rewrite Hb in Hk. destruct (Hcb k l Hk) as [o Ho].
    by rewrite (Hnew l Hl) in Ho.
Qed.

End Scene.

(** ** Results: start-up *)

Lemma times_cons (p : Event → bool) (ev : Event) (tr : list Event) :
  times p (ev :: tr) = ((if p ev then 1 else 0) + times p tr)%nat.
Proof.
  unfold times. rewrite filter_cons. destruct (p ev); by case_decide.
Qed.

Lemma onSuccess_calls_emit (es : list Effect) (s : InitState) :
  onSuccess_calls (emit es s)
  = (onSuccess_calls s + length (filter (λ e, e = call_onSuccess) es))%nat.
Proof. unfold onSuccess_calls, emit. simpl. by rewrite filter_app, length_app. Qed.

Lemma invoke_onError_state (err : string) (s : InitState) :
  let s' := (invoke_onError err s).2 in
  onError s' = onError s ∧ initWaitCount s' = initWaitCount s ∧
  gumRequested s' = gumRequested s ∧ metadataListener s' = metadataListener s ∧
  readyCallback s' = readyCallback s ∧ onSuccess_calls s' = onSuccess_calls s.
Proof.
  unfold invoke_onError. destruct (onError s) as [[]|] eqn:E; simpl;
    rewrite ?onSuccess_calls_emit; simpl; repeat split; try done; lia.
Qed.

Lemma initProgress_state (s : InitState) :
  let s' := initProgress s in
  gumRequested s' = gumRequested s ∧ metadataListener s' = metadataListener s ∧
  readyCallback s' = readyCallback s ∧
  initWaitCount s' = initWaitCount s - 1 ∧
  onSuccess_calls s'
  = (onSuccess_calls s + if bool_decide (initWaitCount s = 1)%Z then 1 else 0)%nat.
Proof.
  unfold initProgress. simpl. case_decide as E; case_bool_decide as E'; try lia;
    unfold completeInit; rewrite ?onSuccess_calls_emit; simpl;
    repeat split; unfold onSuccess_calls; simpl; lia.
Qed.

Lemma success_state (s : InitState) :
  let s' := success s in
  gumRequested s' = gumRequested s ∧ metadataListener s' = true ∧
  readyCallback s' = true ∧ initWaitCount s' = initWaitCount s ∧
  onSuccess_calls s' = onSuccess_calls s.
Proof.
  unfold success, onSuccess_calls. simpl.
  rewrite !filter_app, !length_app. simpl. repeat split; lia.
Qed.

Lemma step_listening (ev : Event) (s : InitState) :
  listening s →
  listening (step ev s) ∧
  initWaitCount (step ev s) = initWaitCount s - (if progress ev then 1 else 0) ∧
  onSuccess_calls (step ev s)
  = (onSuccess_calls s
     + if progress ev && bool_decide (initWaitCount s = 1)%Z then 1 else 0)%nat.
Proof.
  intros (Hg & Hm & Hr). unfold listening. destruct ev as [|err|w h|]; simpl.
  - rewrite Hg. destruct (success_state s) as (-> & -> & -> & -> & ->).
    repeat split; try done; lia.
  - rewrite Hg. destruct (invoke_onError_state err s) as (_ & -> & -> & -> & -> & ->).
    repeat split; try done; lia.
  - rewrite Hm.
    destruct (initProgress_state (set_videoSize (w, h) s)) as (-> & -> & -> & -> & ->).
    simpl. repeat split; try done.
  - rewrite Hr. destruct (initProgress_state s) as (-> & -> & -> & -> & ->).
    repeat split; try done.
Qed.

Lemma run_cons (ev : Event) (tr : list Event) (s : InitState) :
  run (ev :: tr) s = run tr (step ev s).
Proof. done. Qed.

(** Once both callbacks are registered, [completeInit] runs when the counter
    steps from 1 to 0, and at no other time. *)
Lemma run_listening (tr : list Event) (s : InitState) :
  listening s →
  onSuccess_calls (run tr s)
  = (onSuccess_calls s
     + if bool_decide (0 < initWaitCount s ≤ Z.of_nat (times progress tr))%Z
       then 1 else 0)%nat.
Proof.
  revert s. induction tr as [|ev tr IH]; intros s Hs.
  - simpl. case_bool_decide; [|lia]. unfold times in *. simpl in *. lia.
  - rewrite run_cons, times_cons.
    destruct (step_listening ev s Hs) as (Hs' & Hc & Hn).
    rewrite (IH _ Hs'), Hc, Hn.
    destruct (progress ev); simpl; repeat case_bool_decide; lia.
Qed.

Lemma run_idle (tr : list Event) (s : InitState) : idle s → run tr s = s.
Proof.
  intros (Hg & Hm & Hr). induction tr as [|ev tr IH]; [done|].
  rewrite run_cons. destruct ev; simpl; by rewrite ?Hg, ?Hm, ?Hr.
Qed.

(** Before [success] has run, only [gum_success] gets anywhere. *)
Lemma run_requested (tr : list Event) (s : InitState) :
  gumRequested s = true → metadataListener s = false → readyCallback s = false →
  onSuccess_calls (run tr s)
  = (onSuccess_calls s
     + if bool_decide (0 < initWaitCount s ≤ Z.of_nat (times progress (after_success tr)))%Z
       then 1 else 0)%nat.
Proof.
  revert s. induction tr as [|ev tr IH]; intros s Hg Hm Hr.
  - simpl. case_bool_decide; [|lia]. unfold times in *. simpl in *. lia.
  - rewrite run_cons. destruct ev as [|err|w h|]; simpl.
    + rewrite Hg. destruct (success_state s) as (Hg' & Hm' & Hr' & Hc & Hn).
      rewrite run_listening by (unfold listening; rewrite Hg', Hg; done).
      by rewrite Hc, Hn.
    + rewrite Hg.
      destruct (invoke_onError_state err s) as (_ & Hc & Hg' & Hm' & Hr' & Hn).
      rewrite IH by congruence. by rewrite Hc, Hn.
    + rewrite Hm. by apply IH.
    + rewrite Hr. by apply IH.
Qed.




Lemma getUserMediaThreeScene_requested (nav : Navigator) (width height : Z)
    (onError0 : option ErrorCallback) (impl : GumImpl) :
  pick_getUserMedia nav = Some impl →
  let r := getUserMediaThreeScene nav width height onError0 in
  r.1 = Normal tt ∧ gumRequested r.2 = true ∧ metadataListener r.2 = false ∧
  readyCallback r.2 = false ∧ initWaitCount r.2 = 2 ∧ onSuccess_calls r.2 = 0%nat.
Proof.
  intros Hnav. unfold getUserMediaThreeScene. rewrite Hnav. by vm_compute.
Qed.


(** X15: Whatever the browser and the tracker do, [onSuccess] is called at most
    once: the counter passes 0 at most once. *)
Lemma onSuccess_called_at_most_once (nav : Navigator) (width height : Z)
    (onError0 : option ErrorCallback) (tr : list Event) :
  (onSuccess_calls (run tr (getUserMediaThreeScene nav width height onError0).2) ≤ 1)%nat.
Proof.
  destruct (pick_getUserMedia nav) as [impl|] eqn:Hnav.
  - destruct (getUserMediaThreeScene_requested nav width height onError0 impl Hnav)
      as (_ & Hg & Hl & Hc & Hw & Hn).
    rewrite run_requested by done. rewrite Hn. case_bool_decide; lia.
  - unfold getUserMediaThreeScene. rewrite Hnav.
    rewrite run_idle by (by destruct onError0 as [[]|]).
    destruct onError0 as [[]|]; vm_compute; lia.
Qed.

(** The calls of [completeInit] along a trace. *)













(** ** The claims about start-up and rendering *)


(** C5: [renderOn] clears the output, then draws the video scene with the
    video camera and after it the 3D scene with the scene camera, with
    [autoClear] switched off in between so that the second drawing lands on
    top of the first; on return [autoClear] has the value it had on entry. *)
Theorem renderOn_composites_and_restores_autoClear (this : ThreeARScene)
    (needsUpdate : bool) (renderer : WebGLRenderer) :
  let st := renderOn this (needsUpdate, renderer) in
  autoClear st.2 = autoClear renderer ∧
  calls st.2 = calls renderer ++ [Clear;
                                  Render (videoScene this) (videoCamera this);
                                  Render (scene this) (camera this)] ∧
  drawn st.2 = [(videoScene this, videoCamera this); (scene this, camera this)] ∧
  st.1 = true.
Proof.
  simpl. split; [done|]. split; [|done]. by rewrite <- !app_assoc.
Qed.

(** C6: when [navigator] has neither [getUserMedia] nor a prefixed variant,
    [getUserMediaThreeScene] returns normally after calling [onError] with
    the empty string, or after logging through the substituted handler when
    the caller passed none; the [onError] variable is never [undefined], and
    whatever happens afterwards [onSuccess] is not called. *)
Theorem no_getUserMedia_calls_onError (width height : Z)
    (onError0 : option ErrorCallback) (tr : list Event) :
  let r := getUserMediaThreeScene (mkNavigator None None None None)
             width height onError0 in
  r.1 = Normal tt ∧
  onError r.2 ≠ None ∧
  effects r.2
  = artoolkit_init "../../builds" "../../bin/Data/camera_para.dat"
    :: match onError0 with
       | Some user_onError => [call_onError EmptyString]
       | Some logging_onError | None =>
           [console_log "ERROR: artoolkit.getUserMediaThreeScene"; console_log EmptyString]
       end ∧
  run tr r.2 = r.2 ∧
  onSuccess_calls (run tr r.2) = 0%nat.
Proof.
  assert (idle (getUserMediaThreeScene (mkNavigator None None None None)
                  width height onError0).2) as Hidle.
  { by destruct onError0 as [[]|]. }
  simpl. rewrite (run_idle tr _ Hidle).
  by destruct onError0 as [[]|].
Qed.


(** ** Further results: start-up *)

Lemma after_success_none (tr : list Event) :
  times is_gum_success tr = 0%nat → after_success tr = [].
Proof.
  induction tr as [|ev tr IH]; [done|]. rewrite times_cons. simpl.
  destruct (is_gum_success ev); [lia|]. apply IH.
Qed.

(** X16: [onSuccess] is never called unless the browser has called the
    [success] callback of getUserMedia: 'loadedmetadata' and the tracker's
    ready callback alone get nowhere. *)
Theorem onSuccess_needs_granted_stream (nav : Navigator) (width height : Z)
    (onError0 : option ErrorCallback) (tr : list Event) :
  times is_gum_success tr = 0%nat →
  onSuccess_calls (run tr (getUserMediaThreeScene nav width height onError0).2) = 0%nat.
Proof.
  intros Hno. destruct (pick_getUserMedia nav) as [impl|] eqn:Hnav.
  - destruct (getUserMediaThreeScene_requested nav width height onError0 impl Hnav)
      as (_ & Hg & Hl & Hc & Hw & Hn).
    rewrite run_requested by done. rewrite Hn, after_success_none by done.
    case_bool_decide as E; [|done]. unfold times in E. simpl in E. lia.
  - unfold getUserMediaThreeScene. rewrite Hnav.
    rewrite run_idle by (by destruct onError0 as [[]|]).
    by destruct onError0 as [[]|].
Qed.

(** X17: When the browser refuses the camera, the error it reports goes to the
    caller's [onError], or to the console when the caller passed none;
    [onSuccess] is not called and the counter stays at 2. *)
Theorem getUserMedia_error_reaches_onError (nav : Navigator) (width height : Z)
    (onError0 : option ErrorCallback) (impl : GumImpl) (err : string) :
  pick_getUserMedia nav = Some impl →
  let s0 := (getUserMediaThreeScene nav width height onError0).2 in
  effects (step (gum_error err) s0)
  = effects s0 ++ match onError0 with
                  | Some user_onError => [call_onError err]
                  | Some logging_onError | None =>
                      [console_log "ERROR: artoolkit.getUserMediaThreeScene";
                       console_log err]
                  end ∧
  onSuccess_calls (step (gum_error err) s0) = 0%nat ∧
  initWaitCount (step (gum_error err) s0) = 2.
Proof.
  intros Hnav. unfold getUserMediaThreeScene. rewrite Hnav.
  by destruct onError0 as [[]|].
Qed.

(** X18: [getUserMediaThreeScene] itself never throws.  It asks the browser for
    the camera through the first implementation present, the unprefixed one
    before the webkit, moz and ms ones, with [width] and [height] as the
    maximal size; only when none is present does it report an error
    itself. *)
Theorem getUserMediaThreeScene_picks_first_implementation (nav : Navigator)
    (width height : Z) (onError0 : option ErrorCallback) :
  let r := getUserMediaThreeScene nav width height onError0 in
  r.1 = Normal tt ∧
  match head (omap id [getUserMedia nav; webkitGetUserMedia nav;
                       mozGetUserMedia nav; msGetUserMedia nav]) with
  | Some impl =>
      gumRequested r.2 = true ∧
      effects r.2 = [artoolkit_init "../../builds" "../../bin/Data/camera_para.dat";
                     navigator_getUserMedia impl width height]
  | None =>
      gumRequested r.2 = false ∧
      ∀ e, e ∈ effects r.2 → ∀ impl w h, e ≠ navigator_getUserMedia impl w h
  end.
Proof.
  destruct nav as [[a|] [b|] [c|] [d|]]; simpl; try done.
  destruct onError0 as [[]|]; simpl; (split; [done|]); (split; [done|]);
    intros e He impl w h ->; rewrite !elem_of_cons, elem_of_nil in He;
    intuition discriminate.
Qed.

(** X19: The handshake does not depend on which of the two events comes first:
    either way [artoolkit.setup] is called once, with the size the video
    reported, followed by [createThreeScene] and [onSuccess]. *)
Theorem handshake_order_does_not_matter (nav : Navigator) (width height : Z)
    (onError0 : option ErrorCallback) (impl : GumImpl) (vw vh : Z) :
  pick_getUserMedia nav = Some impl →
  let s0 := (getUserMediaThreeScene nav width height onError0).2 in
  run [gum_success; loadedmetadata vw vh; tracker_ready] s0
  = run [gum_success; tracker_ready; loadedmetadata vw vh] s0 ∧
  effects (run [gum_success; tracker_ready; loadedmetadata vw vh] s0)
  = effects s0 ++ [video_addEventListener "loadedmetadata"; video_set_src; video_play;
                   artoolkit_onReady;
                   artoolkit_setup vw vh; artoolkit_createThreeScene; call_onSuccess].
Proof.
  intros Hnav. unfold getUserMediaThreeScene. rewrite Hnav.
  by destruct onError0 as [[]|].
Qed.

(** ** The theorems at concrete inputs *)

(** A fresh [THREE.Object3D]: identity matrix, visible, auto-updating. *)
Local Abbreviation fresh_Object3D := (mkObject3D Z (mkMatrix4 Z identity16) true true).

(** The world after [artoolkit.createThreeMarker(3)] on the initial world. *)
Local Abbreviation world_with_marker_3 :=
  (createThreeMarker Z fresh_Object3D 3
     (initial_world Z identity16 identity16 identity16)).2.

(** The identity and the far pose as a [Float32Array] holds them, and the
    far pose as a plain array of numbers. *)
Local Abbreviation identity_float32 := (float32_of_number ∘ number_of_Z <$> identity16).
Local Abbreviation far_pose_float32 := (float32_of_number ∘ number_of_Z <$> far_pose16).
Local Abbreviation far_pose_numbers := (number_of_Z <$> far_pose16).

(** C8 as the specification words it, for every 16-element array, fails:
    a plain array of numbers is rounded entry by entry on its way into the
    [Float32Array], so 2^24 + 1 is read back as 2^24 and -(2^24 + 3) as
    -(2^24 + 4). *)
Lemma setFromArray_rounds_plain_arrays :
  length far_pose_numbers = 16%nat ∧
  number_of_float32
    <$> elements float32
          (setFromArray_of float32 float32_of_number
             (mkMatrix4 float32 identity_float32) far_pose_numbers).2
  = number_of_Z <$> far_pose16_rounded ∧
  number_of_float32
    <$> elements float32
          (setFromArray_of float32 float32_of_number
             (mkMatrix4 float32 identity_float32) far_pose_numbers).2
  ≠ far_pose_numbers.
Proof.
  split; [reflexivity|]. split; [by vm_compute|]. by vm_compute.
Qed.

Lemma setFromArray_stores_converted_values_witness :
  length (elements float32 (mkMatrix4 float32 identity_float32)) = 16%nat ∧
  length far_pose_numbers = 16%nat ∧
  length far_pose_float32 = 16%nat ∧
  setFromArray_of float32 float32_of_number (mkMatrix4 float32 identity_float32)
    far_pose_numbers
  = (Normal undefined, mkMatrix4 float32 (float32_of_number <$> far_pose_numbers)) ∧
  setFromArray float32 (mkMatrix4 float32 identity_float32) far_pose_float32
  = (Normal undefined, mkMatrix4 float32 far_pose_float32).
Proof.
  assert (length (elements float32 (mkMatrix4 float32 identity_float32)) = 16%nat)
    as Ht by reflexivity.
  assert (length far_pose_numbers = 16%nat) as Ha by reflexivity.
  assert (length far_pose_float32 = 16%nat) as Hb by reflexivity.
  split; [exact Ht|]. split; [exact Ha|]. split; [exact Hb|].
  destruct (setFromArray_stores_converted_values float32 float32_of_number
              (mkMatrix4 float32 identity_float32) far_pose_numbers far_pose_float32
              Ht Ha Hb) as (H1 & H2 & _).
  by split.
Defined.

Lemma world_with_marker_3_matrices16 :
  object_matrices16 Z (heap Z world_with_marker_3).
Proof. apply (@bool_decide_unpack _ (object_matrices16_dec Z _)). vm_compute. exact I. Qed.

Lemma onGetMarker_tracks_registered_objects_witness :
  object_matrices16 Z (heap Z world_with_marker_3) ∧
  length (transformationMatrix Z (set_transformationMatrix Z pose16 world_with_marker_3))
  = 16%nat ∧
  ∃ w' o', onGetMarker Z (mkMarker 3 (-1))
             (set_transformationMatrix Z pose16 world_with_marker_3) = (Normal tt, w') ∧
           heap Z w' !! 0%nat = Some o' ∧
           elements Z (matrix Z o') = pose16 ∧ visible Z o' = true.
Proof.
  split; [exact world_with_marker_3_matrices16|]. split; [reflexivity|].
  destruct (onGetMarker_tracks_registered_objects Z (mkMarker 3 (-1))
              (set_transformationMatrix Z pose16 world_with_marker_3)
              world_with_marker_3_matrices16 eq_refl)
    as (w' & Hrun & Hhit & _).
  destruct (Hhit 0%nat (set_matrixAutoUpdate Z false fresh_Object3D))
    as (o' & Ho' & Hel & Hvis & _); [by left|reflexivity|].
  by exists w', o'.
Defined.

(** One frame in which the tracker reports pattern marker 3 at [pose16]. *)
Local Abbreviation frame_with_marker_3 :=
  (mkFrame Z [(mkMarker 3 (-1), pose16)] pose16).

Lemma frame_with_marker_3_reports16 :
  ∀ r, r ∈ reports Z frame_with_marker_3 → length r.2 = 16%nat.
Proof. intros r Hr. apply list_elem_of_singleton in Hr. by subst r. Qed.

Lemma process_hides_then_shows_reported_witness :
  object_matrices16 Z (heap Z world_with_marker_3) ∧
  length (elements Z (projectionMatrix Z world_with_marker_3)) = 16%nat ∧
  (∀ r, r ∈ reports Z frame_with_marker_3 → length r.2 = 16%nat) ∧
  length (cameraAfter Z frame_with_marker_3) = 16%nat ∧
  ∃ w' o, process Z frame_with_marker_3 world_with_marker_3 = (Normal tt, w') ∧
          heap Z w' !! 0%nat = Some o ∧ visible Z o = true.
Proof.
  split; [exact world_with_marker_3_matrices16|]. split; [reflexivity|].
  split; [exact frame_with_marker_3_reports16|]. split; [reflexivity|].
  destruct (process_hides_then_shows_reported Z frame_with_marker_3 world_with_marker_3
              world_with_marker_3_matrices16 eq_refl
              frame_with_marker_3_reports16 eq_refl)
    as (w1 & w2 & w' & _ & _ & _ & Hrun & _ & Hvis).
  assert (is_Some (heap Z w' !! 0%nat)) as [o Ho].
  { rewrite process_run in Hrun
      by (try exact world_with_marker_3_matrices16;
          try exact frame_with_marker_3_reports16; reflexivity).
    injection Hrun as <-. eexists. vm_compute. reflexivity. }
  exists w', o. split; [done|]. split; [done|].
  apply (Hvis 0%nat o); [left; by exists 3|done|].
  exists (mkMarker 3 (-1), pose16). split; [apply list_elem_of_here|by left].
Defined.

Lemma process_applies_camera_matrix_witness :
  object_matrices16 Z (heap Z world_with_marker_3) ∧
  length (elements Z (projectionMatrix Z world_with_marker_3)) = 16%nat ∧
  (∀ r, r ∈ reports Z frame_with_marker_3 → length r.2 = 16%nat) ∧
  length (cameraAfter Z frame_with_marker_3) = 16%nat ∧
  ∃ w', process Z frame_with_marker_3 world_with_marker_3 = (Normal tt, w') ∧
        elements Z (projectionMatrix Z w') = pose16.
Proof.
  split; [exact world_with_marker_3_matrices16|]. split; [reflexivity|].
  split; [exact frame_with_marker_3_reports16|]. split; [reflexivity|].
  destruct (process_applies_camera_matrix Z frame_with_marker_3 world_with_marker_3
              world_with_marker_3_matrices16 eq_refl
              frame_with_marker_3_reports16 eq_refl)
    as (w' & Hrun & Hcam & Hproj).
  exists w'. split; [done|]. by rewrite Hproj, Hcam.
Defined.

Lemma initial_world_closed :
  tables_closed Z (initial_world Z identity16 identity16 identity16).
Proof. apply initial_world_invariants. Qed.

Lemma initial_world_matrices16 :
  object_matrices16 Z (heap Z (initial_world Z identity16 identity16 identity16)).
Proof. apply initial_world_invariants. Qed.

Lemma re_registration_last_write_wins_witness :
  tables_closed Z (initial_world Z identity16 identity16 identity16) ∧
  object_matrices16 Z (heap Z (initial_world Z identity16 identity16 identity16)) ∧
  length (elements Z (matrix Z fresh_Object3D)) = 16%nat ∧
  length pose16 = 16%nat ∧
  ∃ l1 w1 l2 w2,
    createThreeMarker Z fresh_Object3D 3
      (initial_world Z identity16 identity16 identity16) = (Normal l1, w1) ∧
    createThreeMarker Z fresh_Object3D 3 w1 = (Normal l2, w2) ∧
    l1 ≠ l2 ∧
    patternMarkers Z w2 !! 3 = Some l2 ∧
    heap Z (onGetMarker Z (mkMarker 3 (-1)) (set_transformationMatrix Z pose16 w2)).2 !! l1
    = heap Z w2 !! l1.
Proof.
  split; [exact initial_world_closed|]. split; [exact initial_world_matrices16|].
  split; [reflexivity|]. split; [reflexivity|].
  destruct (re_registration_last_write_wins Z fresh_Object3D 3 pose16
              (initial_world Z identity16 identity16 identity16)
              initial_world_closed initial_world_matrices16 eq_refl eq_refl)
    as [(l1 & w1 & l2 & w2 & H1 & H2 & Hne & Htab & _ & Hrep) _].
  exists l1, w1, l2, w2. repeat (split; [done|]).
  apply (Hrep (mkMarker 3 (-1))).
Defined.


(** Seventeen entries: one more than a matrix holds. *)
Local Abbreviation oversized17 := (pose16 ++ [7]).

(** A frame in which the tracker reports nothing. *)
Local Abbreviation frame_without_markers := (mkFrame Z [] identity16).

Lemma frame_with_marker_3_frame16 : frame16 Z frame_with_marker_3.
Proof. split; [exact frame_with_marker_3_reports16|reflexivity]. Qed.

Lemma frame_without_markers_frame16 : frame16 Z frame_without_markers.
Proof. split; [|reflexivity]. intros r Hr. by apply elem_of_nil in Hr. Qed.

Lemma world_with_marker_3_registered :
  patternMarkers Z world_with_marker_3 !! 3 = Some 0%nat.
Proof. by vm_compute. Qed.

Lemma world_with_marker_3_closed : tables_closed Z world_with_marker_3.
Proof. apply createThreeMarker_closed, initial_world_closed. Qed.

Lemma world_with_marker_3_invariant :
  api_invariant Z world_with_marker_3.
Proof.
  apply (api_step_invariant Z fresh_Object3D (call_createThreeMarker Z 3));
    [reflexivity|exact I|].
  by apply initial_api_invariant.
Qed.

Lemma setFromArray_too_long_throws_witness :
  (length (elements Z (mkMatrix4 Z identity16)) < length oversized17)%nat ∧
  setFromArray Z (mkMatrix4 Z identity16) oversized17
  = (Throw RangeError, mkMatrix4 Z identity16).
Proof.
  split; [vm_compute; lia|].
  apply (setFromArray_too_long_throws Z (mkMatrix4 Z identity16) oversized17).
  vm_compute. lia.
Defined.

Lemma setFromArray_short_overwrites_prefix_witness :
  (length [9; 8; 7] ≤ length (elements Z (mkMatrix4 Z identity16)))%nat ∧
  ∃ this', setFromArray Z (mkMatrix4 Z identity16) [9; 8; 7] = (Normal undefined, this') ∧
           length (elements Z this') = 16%nat ∧
           take 3 (elements Z this') = [9; 8; 7] ∧
           drop 3 (elements Z this') = drop 3 identity16.
Proof.
  split; [vm_compute; lia|].
  apply (setFromArray_short_overwrites_prefix Z (mkMatrix4 Z identity16) [9; 8; 7]).
  vm_compute. lia.
Defined.

Lemma onGetMarker_oversized_matrix_throws_witness :
  patternMarkers Z (set_transformationMatrix Z oversized17 world_with_marker_3)
    !! idPatt (mkMarker 3 (-1)) = Some 0%nat ∧
  heap Z (set_transformationMatrix Z oversized17 world_with_marker_3) !! 0%nat
  = Some (set_matrixAutoUpdate Z false fresh_Object3D) ∧
  (length (elements Z (matrix Z (set_matrixAutoUpdate Z false fresh_Object3D)))
   < length (transformationMatrix Z
               (set_transformationMatrix Z oversized17 world_with_marker_3)))%nat ∧
  onGetMarker Z (mkMarker 3 (-1)) (set_transformationMatrix Z oversized17 world_with_marker_3)
  = (Throw RangeError, set_transformationMatrix Z oversized17 world_with_marker_3).
Proof.
  split; [by vm_compute|]. split; [by vm_compute|]. split; [vm_compute; lia|].
  apply (onGetMarker_oversized_matrix_throws Z (mkMarker 3 (-1)) 0%nat
           (set_matrixAutoUpdate Z false fresh_Object3D));
    [by vm_compute|by vm_compute|vm_compute; lia].
Defined.

Lemma process_throws_only_RangeError_witness :
  process Z (mkFrame Z [(mkMarker 3 (-1), oversized17)] identity16) world_with_marker_3
  = (Throw RangeError,
     (process Z (mkFrame Z [(mkMarker 3 (-1), oversized17)] identity16)
        world_with_marker_3).2) ∧
  RangeError = RangeError ∧
  projectionMatrix Z
    (process Z (mkFrame Z [(mkMarker 3 (-1), oversized17)] identity16)
       world_with_marker_3).2
  = projectionMatrix Z world_with_marker_3.
Proof.
  assert (process Z (mkFrame Z [(mkMarker 3 (-1), oversized17)] identity16)
            world_with_marker_3
          = (Throw RangeError,
             (process Z (mkFrame Z [(mkMarker 3 (-1), oversized17)] identity16)
                world_with_marker_3).2)) as Hrun.
  { assert ((process Z (mkFrame Z [(mkMarker 3 (-1), oversized17)] identity16)
               world_with_marker_3).1 = Throw RangeError) as H1 by (by vm_compute).
    destruct (process Z (mkFrame Z [(mkMarker 3 (-1), oversized17)] identity16)
                world_with_marker_3) as [c w']. simpl in *. by subst c. }
  split; [exact Hrun|].
  exact (process_throws_only_RangeError Z _ _ _ _ Hrun).
Defined.

Lemma process_unreported_keeps_pose_witness :
  object_matrices16 Z (heap Z world_with_marker_3) ∧
  length (elements Z (projectionMatrix Z world_with_marker_3)) = 16%nat ∧
  frame16 Z frame_without_markers ∧
  registered Z world_with_marker_3 0%nat ∧
  (∀ r, r ∈ reports Z frame_without_markers → ¬ reported Z world_with_marker_3 r.1 0%nat) ∧
  ∃ w', process Z frame_without_markers world_with_marker_3 = (Normal tt, w') ∧
        heap Z w' !! 0%nat
        = set_visible Z false <$> heap Z world_with_marker_3 !! 0%nat.
Proof.
  assert (registered Z world_with_marker_3 0%nat) as Hreg.
  { left. exists 3. exact world_with_marker_3_registered. }
  assert (∀ r, r ∈ reports Z frame_without_markers →
               ¬ reported Z world_with_marker_3 r.1 0%nat) as Hno.
  { intros r Hr. by apply elem_of_nil in Hr. }
  split; [exact world_with_marker_3_matrices16|]. split; [reflexivity|].
  split; [exact frame_without_markers_frame16|]. split; [exact Hreg|].
  split; [exact Hno|].
  exact (process_unreported_keeps_pose Z frame_without_markers world_with_marker_3 0%nat
           world_with_marker_3_matrices16 eq_refl frame_without_markers_frame16 Hreg Hno).
Defined.

Lemma process_last_report_wins_witness :
  object_matrices16 Z (heap Z world_with_marker_3) ∧
  length (elements Z (projectionMatrix Z world_with_marker_3)) = 16%nat ∧
  frame16 Z (mkFrame Z [(mkMarker 3 (-1), identity16); (mkMarker 3 (-1), pose16)] identity16) ∧
  ∃ w' o', process Z (mkFrame Z [(mkMarker 3 (-1), identity16); (mkMarker 3 (-1), pose16)]
                        identity16) world_with_marker_3 = (Normal tt, w') ∧
           heap Z w' !! 0%nat = Some o' ∧
           elements Z (matrix Z o') = pose16 ∧
           visible Z o' = true.
Proof.
  assert (frame16 Z (mkFrame Z [(mkMarker 3 (-1), identity16); (mkMarker 3 (-1), pose16)]
                       identity16)) as Hf.
  { split; [|reflexivity]. intros r Hr.
    apply elem_of_cons in Hr as [->|Hr]; [reflexivity|].
    apply list_elem_of_singleton in Hr. by subst r. }
  split; [exact world_with_marker_3_matrices16|]. split; [reflexivity|].
  split; [exact Hf|].
  destruct (process_last_report_wins Z
              (mkFrame Z [(mkMarker 3 (-1), identity16); (mkMarker 3 (-1), pose16)] identity16)
              world_with_marker_3 0%nat (set_matrixAutoUpdate Z false fresh_Object3D)
              [(mkMarker 3 (-1), identity16)] [] (mkMarker 3 (-1), pose16)
              world_with_marker_3_matrices16 eq_refl Hf eq_refl)
    as (w' & o' & Hrun & Ho' & Hel & Hvis & _).
  - left. exact world_with_marker_3_registered.
  - intros r Hr. by apply elem_of_nil in Hr.
  - by vm_compute.
  - by exists w', o'.
Defined.

Lemma process_twice_shows_last_frame_witness :
  object_matrices16 Z (heap Z world_with_marker_3) ∧
  length (elements Z (projectionMatrix Z world_with_marker_3)) = 16%nat ∧
  frame16 Z frame_with_marker_3 ∧
  frame16 Z frame_without_markers ∧
  ∃ w1 w2, process Z frame_with_marker_3 world_with_marker_3 = (Normal tt, w1) ∧
           process Z frame_without_markers w1 = (Normal tt, w2) ∧
           ∀ o, heap Z w2 !! 0%nat = Some o → visible Z o ≠ true.
Proof.
  split; [exact world_with_marker_3_matrices16|]. split; [reflexivity|].
  split; [exact frame_with_marker_3_frame16|].
  split; [exact frame_without_markers_frame16|].
  destruct (process_twice_shows_last_frame Z frame_with_marker_3 frame_without_markers
              world_with_marker_3 world_with_marker_3_matrices16 eq_refl
              frame_with_marker_3_frame16 frame_without_markers_frame16)
    as (w1 & w2 & H1 & H2 & Hvis).
  exists w1, w2. split; [done|]. split; [done|]. intros o Ho Hv.
  apply (Hvis 0%nat o) in Hv as (r & Hr & _); [|left; exists 3;
    exact world_with_marker_3_registered|done].
  by apply elem_of_nil in Hr.
Defined.

Lemma world_with_marker_3_keys (k : Z) :
  k ∈ [3; 3] ↔ is_Some (patternMarkers Z world_with_marker_3 !! k).
Proof.
  rewrite createThreeMarker_run. simpl.
  rewrite !elem_of_cons, elem_of_nil, lookup_insert_is_Some, lookup_empty.
  split; [intros [->|[->|[]]]; by left|].
  intros [->|[_ H]]; [by left|]. by destruct H.
Qed.

Lemma world_with_marker_3_no_barcodes (k : Z) :
  k ∈ [] ↔ is_Some (barcodeMarkers Z world_with_marker_3 !! k).
Proof.
  rewrite createThreeMarker_run. simpl. rewrite elem_of_nil, lookup_empty.
  split; [done|]. by intros [? ?].
Qed.

Lemma hide_loops_order_independent_witness :
  (∀ k, k ∈ [3; 3] ↔ is_Some (patternMarkers Z world_with_marker_3 !! k)) ∧
  (∀ k, k ∈ [] ↔ is_Some (barcodeMarkers Z world_with_marker_3 !! k)) ∧
  bind Z (for_each Z [3; 3] (hide_entry Z (patternMarkers Z)))
    (λ _, for_each Z [] (hide_entry Z (barcodeMarkers Z))) world_with_marker_3
  = hide_markers Z world_with_marker_3.
Proof.
  split; [exact world_with_marker_3_keys|].
  split; [exact world_with_marker_3_no_barcodes|].
  exact (hide_loops_order_independent Z [3; 3] [] world_with_marker_3
           world_with_marker_3_keys world_with_marker_3_no_barcodes).
Defined.

Lemma api_run_keeps_invariants_witness :
  length (elements Z (matrix Z fresh_Object3D)) = 16%nat ∧
  length identity16 = 16%nat ∧
  Forall (well_sized Z) [call_createThreeMarker Z 3; call_process Z frame_with_marker_3;
                         call_createThreeBarcodeMarker Z 3] ∧
  api_invariant Z
    (run_api Z fresh_Object3D
       [call_createThreeMarker Z 3; call_process Z frame_with_marker_3;
        call_createThreeBarcodeMarker Z 3]
       (initial_world Z identity16 identity16 identity16)).
Proof.
  assert (Forall (well_sized Z)
            [call_createThreeMarker Z 3; call_process Z frame_with_marker_3;
             call_createThreeBarcodeMarker Z 3]) as Hcs.
  { repeat constructor. exact frame_with_marker_3_reports16. }
  split; [reflexivity|]. split; [reflexivity|]. split; [exact Hcs|].
  exact (api_run_keeps_invariants Z fresh_Object3D _ identity16 identity16 identity16
           eq_refl eq_refl Hcs).
Defined.

Lemma process_shows_marker_by_id_witness :
  api_invariant Z world_with_marker_3 ∧
  frame16 Z frame_with_marker_3 ∧
  heap Z (process Z frame_with_marker_3 world_with_marker_3).2 !! 0%nat
  = Some (mkObject3D Z (mkMatrix4 Z pose16) true false) ∧
  (patternMarkers Z world_with_marker_3 !! 3 = Some 0%nat →
   (visible Z (mkObject3D Z (mkMatrix4 Z pose16) true false) = true
    ↔ ∃ r, r ∈ reports Z frame_with_marker_3 ∧ idPatt r.1 = 3)) ∧
  (barcodeMarkers Z world_with_marker_3 !! 3 = Some 0%nat →
   (visible Z (mkObject3D Z (mkMatrix4 Z pose16) true false) = true
    ↔ ∃ r, r ∈ reports Z frame_with_marker_3 ∧ idMatrix r.1 = 3)).
Proof.
  assert (heap Z (process Z frame_with_marker_3 world_with_marker_3).2 !! 0%nat
          = Some (mkObject3D Z (mkMatrix4 Z pose16) true false)) as Hl by (by vm_compute).
  split; [exact world_with_marker_3_invariant|].
  split; [exact frame_with_marker_3_frame16|]. split; [exact Hl|].
  exact (process_shows_marker_by_id Z frame_with_marker_3 world_with_marker_3 3 0%nat _
           world_with_marker_3_invariant frame_with_marker_3_frame16 Hl).
Defined.

Lemma onGetMarker_twice_same_report_witness :
  object_matrices16 Z (heap Z world_with_marker_3) ∧
  length (transformationMatrix Z (set_transformationMatrix Z pose16 world_with_marker_3))
  = 16%nat ∧
  ∃ w1, onGetMarker Z (mkMarker 3 (-1))
          (set_transformationMatrix Z pose16 world_with_marker_3) = (Normal tt, w1) ∧
        onGetMarker Z (mkMarker 3 (-1)) w1 = (Normal tt, w1).
Proof.
  split; [exact world_with_marker_3_matrices16|]. split; [reflexivity|].
  exact (onGetMarker_twice_same_report Z (mkMarker 3 (-1))
           (set_transformationMatrix Z pose16 world_with_marker_3)
           world_with_marker_3_matrices16 eq_refl).
Defined.

Lemma scene_objects_never_tracked_witness :
  tables_closed Z world_with_marker_3 ∧
  ∃ parts w',
    createThreeScene Z fresh_Object3D (mkTexture (other_constant 1008) true false)
      (mkMaterial no_texture (other_constant 0) true true) identity16
      world_with_marker_3 = (Normal parts, w') ∧
    ∀ l, l ∈ scene_objects parts →
      heap Z (run_api Z fresh_Object3D
                [call_createThreeMarker Z 5; call_process Z frame_with_marker_3] w') !! l
      = heap Z w' !! l.
Proof.
  split; [exact world_with_marker_3_closed|].
  exact (scene_objects_never_tracked Z fresh_Object3D
           (mkTexture (other_constant 1008) true false)
           (mkMaterial no_texture (other_constant 0) true true) identity16
           [call_createThreeMarker Z 5; call_process Z frame_with_marker_3]
           world_with_marker_3 world_with_marker_3_closed).
Defined.

Lemma onSuccess_needs_granted_stream_witness :
  times is_gum_success [loadedmetadata 640 480; tracker_ready] = 0%nat ∧
  onSuccess_calls
    (run [loadedmetadata 640 480; tracker_ready]
       (getUserMediaThreeScene (mkNavigator (Some StdGum) None None None)
          640 480 None).2) = 0%nat.
Proof.
  split; [reflexivity|].
  apply (onSuccess_needs_granted_stream (mkNavigator (Some StdGum) None None None)
           640 480 None [loadedmetadata 640 480; tracker_ready]).
  reflexivity.
Defined.

Lemma getUserMedia_error_reaches_onError_witness :
  pick_getUserMedia (mkNavigator None None (Some MozGum) None) = Some MozGum ∧
  effects (step (gum_error "PermissionDeniedError")
             (getUserMediaThreeScene (mkNavigator None None (Some MozGum) None)
                640 480 (Some user_onError)).2)
  = effects (getUserMediaThreeScene (mkNavigator None None (Some MozGum) None)
               640 480 (Some user_onError)).2
    ++ [call_onError "PermissionDeniedError"].
Proof.
  split; [reflexivity|].
  apply (getUserMedia_error_reaches_onError (mkNavigator None None (Some MozGum) None)
           640 480 (Some user_onError) MozGum "PermissionDeniedError").
  reflexivity.
Defined.

Lemma handshake_order_does_not_matter_witness :
  pick_getUserMedia (mkNavigator (Some StdGum) None None None) = Some StdGum ∧
  run [gum_success; loadedmetadata 640 480; tracker_ready]
    (getUserMediaThreeScene (mkNavigator (Some StdGum) None None None) 640 480 None).2
  = run [gum_success; tracker_ready; loadedmetadata 640 480]
      (getUserMediaThreeScene (mkNavigator (Some StdGum) None None None) 640 480 None).2.
Proof.
  split; [reflexivity|].
  apply (handshake_order_does_not_matter (mkNavigator (Some StdGum) None None None)
           640 480 None StdGum 640 480).
  reflexivity.
Defined.

Lemma process_returns_on_api_worlds_witness :
  length (elements Z (matrix Z fresh_Object3D)) = 16%nat ∧
  length identity16 = 16%nat ∧
  Forall (well_sized Z) [call_createThreeMarker Z 3; call_createThreeBarcodeMarker Z 20] ∧
  frame16 Z frame_with_marker_3 ∧
  ∃ w', process Z frame_with_marker_3
          (run_api Z fresh_Object3D
             [call_createThreeMarker Z 3; call_createThreeBarcodeMarker Z 20]
             (initial_world Z identity16 identity16 identity16))
        = (Normal tt, w').
Proof.
  assert (Forall (well_sized Z)
            [call_createThreeMarker Z 3; call_createThreeBarcodeMarker Z 20]) as Hcs.
  { by repeat constructor. }
  split; [reflexivity|]. split; [reflexivity|]. split; [exact Hcs|].
  split; [exact frame_with_marker_3_frame16|].
  exact (process_returns_on_api_worlds Z fresh_Object3D _ frame_with_marker_3
           identity16 identity16 identity16 eq_refl eq_refl Hcs
           frame_with_marker_3_frame16).
Defined.
